(** * hornbill: token lifecycle, credential store and import cycle

    A shallow embedding of [src/hornbill/utils/database.py],
    [src/hornbill/utils/truelayer.py] and [src/hornbill/api.py].

    Python code that reads the clock, the environment, the SQLite file or the
    network is written in a state-and-exception monad over a [World]: the
    world holds the clock, [os.environ], the two tables of the SQLite file,
    the replies the network is going to give (in the order the requests are
    made) and a chronological trace of what the program did (requests sent,
    token rows written, log records).  An exception keeps the world it was
    raised in, as in Python. *)

From Stdlib Require Import String ZArith List Bool Lia Permutation.
Import ListNotations.
Open Scope string_scope.
Open Scope list_scope.
Open Scope Z_scope.

(** ** Values *)

(** What [response.json()] returns.  JSON numbers are integers here (the
    fields the code computes with, [expires_in], are integers). *)
#[warnings="-register-all"]
Inductive json : Type :=
| JNull
| JBool (b : bool)
| JInt (z : Z)
| JStr (s : string)
| JArr (l : list json)
| JObj (m : list (string * json)).

(** Structured text of the [RuntimeError]s the code raises. *)
Inductive RuntimeMsg : Type :=
| NoStoredTokens
    (* "No stored tokens found and TRUE_LAYER_CODE is not set. ..." *)
| FailedExchange (status : Z) (data : json)
    (* f"Failed to exchange code: {status} {data}" *)
| FailedRefresh (status : Z) (data : json)
    (* f"Failed to refresh token: {status} {data}" *)
| FailedListCards (status : Z) (data : json)
| FailedListAccounts (status : Z) (data : json)
| FailedListCardTransactions (status : Z) (data : json)
| FailedListAccountTransactions (status : Z) (data : json)
| NoAccountFound (account_name : string) (institution : option string).
    (* f"No account found with name {account_name} for institution {institution}" *)

Inductive HttpDetail : Type :=
| ImportServiceError   (* f"Import service error: {e}" *)
| ImportFailed (text : string). (* f"Import failed: {resp.text}" *)

(** Python exceptions; every one of them is a subclass of [Exception]. *)
Inductive Exn : Type :=
| RuntimeError (m : RuntimeMsg)
| ValueError (m : string)
| KeyError (k : string)
| TypeError
| AttributeError
| ValidationError            (* pydantic *)
| JSONDecodeError            (* requests.exceptions.JSONDecodeError, a ValueError *)
| RequestException           (* requests: the request got no response *)
| IntegrityError             (* sqlite3: a NOT NULL column given NULL *)
| OverflowError              (* sqlite3: an int that does not fit an INTEGER *)
| HTTPException (status_code : Z) (detail : HttpDetail).

(** The error kinds of the specification, as the code raises them. *)
Definition CredentialsUnavailable : Exn := RuntimeError NoStoredTokens.
Definition TokenExchangeFailed (status : Z) (data : json) : Exn :=
  RuntimeError (FailedExchange status data).
Definition TokenRefreshFailed (status : Z) (data : json) : Exn :=
  RuntimeError (FailedRefresh status data).
Definition NotFound (account_name : string) (institution : option string) : Exn :=
  RuntimeError (NoAccountFound account_name institution).

(** ** Tables of the SQLite file *)

(** [class TokenData(BaseModel)] *)
Record TokenData : Type := mkTokenData {
  access_token : string;
  refresh_token : string;
  token_type : string;
  scope : string;
  expires_at : Z
}.

(** A row of [tokens]; every column is NOT NULL and
    [(provider, institution)] is the primary key. *)
Record TokenRow : Type := mkTokenRow {
  tk_provider : string;
  tk_institution : string;
  tk_data : TokenData;     (* access_token .. expires_at *)
  tk_updated_at : Z
}.

(** [type TEXT CHECK(type IN ('credit', 'debit')) NOT NULL] *)
Inductive AccountType : Type := credit | debit.

Definition type_text (t : AccountType) : string :=
  match t with credit => "credit" | debit => "debit" end.

(** A row of [accounts]; [institution], [truelayer_account_id] and
    [actual_account_id] are nullable, and nothing but [id] is unique. *)
Record AccountRow : Type := mkAccountRow {
  ac_id : Z;
  ac_name : string;
  ac_type : AccountType;
  ac_institution : option string;
  ac_truelayer_account_id : option string;
  ac_actual_account_id : option string
}.

(** ** Network *)

Record Response : Type := mkResponse {
  status_code : Z;
  text : string;             (* the body *)
  parsed : option json       (* the body as JSON, when it is JSON *)
}.

Inductive NetReply : Type :=
| Reply (latency : nat) (r : Response)
| Unreachable (latency : nat).

Inductive Request : Type :=
| POST_form (url : string) (headers : list (string * string))
            (data : list (string * string))
| GET (url : string) (headers : list (string * string))
      (params : list (string * option string))
| POST_json (url : string) (body : json).

(** ** Trace *)

Inductive LogMsg : Type :=
| Fetched (n : nat)
    (* f"Fetched {len(transactions)} transactions from TrueLayer" *)
| FailedImporting (name : string) (institution : option string).
    (* f"Failed importing transactions for account '{name}' ({institution})" *)

Inductive Event : Type :=
| EvRequest (rq : Request)
| EvSaveToken (row : TokenRow)
| EvLogInfo (m : LogMsg)
| EvLogException (m : LogMsg) (e : Exn).

(** ** World *)

Record World : Type := mkWorld {
  clock : Z;                          (* int(time.time()) *)
  environ : string -> option string;  (* os.environ, after load_dotenv() *)
  calendar : Z -> string;             (* local date "%Y-%m-%d" of an instant *)
  tokens : list TokenRow;             (* table tokens, in rowid order *)
  accounts : list AccountRow;         (* table accounts, in rowid order *)
  network : list NetReply;            (* replies to the requests to come *)
  trace : list Event                  (* what happened so far, oldest first *)
}.

Definition set_tokens (t : list TokenRow) (w : World) : World :=
  mkWorld (clock w) (environ w) (calendar w) t (accounts w) (network w) (trace w).

Definition emit (e : Event) (w : World) : World :=
  mkWorld (clock w) (environ w) (calendar w) (tokens w) (accounts w) (network w)
          (trace w ++ [e]).

(** The time a caller spends between two operations. *)
Definition advance (d : nat) (w : World) : World :=
  mkWorld (clock w + Z.of_nat d) (environ w) (calendar w) (tokens w)
          (accounts w) (network w) (trace w).

Definition consume (d : nat) (rest : list NetReply) (w : World) : World :=
  mkWorld (clock w + Z.of_nat d) (environ w) (calendar w) (tokens w)
          (accounts w) rest (trace w).

(** ** The monad *)

Inductive Res (A : Type) : Type :=
| Ok (a : A)
| Raise (e : Exn).
Arguments Ok {A} a.
Arguments Raise {A} e.

Definition Py (A : Type) : Type := World -> Res A * World.

Definition ret {A} (a : A) : Py A := fun w => (Ok a, w).
Definition raise {A} (e : Exn) : Py A := fun w => (Raise e, w).
Definition bind {A B} (c : Py A) (k : A -> Py B) : Py B :=
  fun w => match c w with
           | (Ok a, w') => k a w'
           | (Raise e, w') => (Raise e, w')
           end.
(** [try: c  except Exception as e: h e] *)
Definition try_except {A} (c : Py A) (h : Exn -> Py A) : Py A :=
  fun w => match c w with
           | (Ok a, w') => (Ok a, w')
           | (Raise e, w') => h e w'
           end.

Declare Scope py_scope.
Delimit Scope py_scope with py.
Notation "x <- c ;; k" := (bind c (fun x => k))
  (at level 61, c at next level, right associativity) : py_scope.
Notation "c ;;; k" := (bind c (fun _ => k))
  (at level 61, right associativity) : py_scope.
Open Scope py_scope.

Definition time_time : Py Z := fun w => (Ok (clock w), w).
Definition getenv (k : string) : Py (option string) :=
  fun w => (Ok (environ w k), w).
Definition log (e : Event) : Py unit := fun w => (Ok tt, emit e w).

(** [requests.get] / [requests.post]: the request is sent, then the next
    reply of the network is taken; no reply is a [RequestException]. *)
Definition http_send (rq : Request) : Py Response :=
  fun w =>
    let w1 := emit (EvRequest rq) w in
    match network w1 with
    | [] => (Raise RequestException, w1)
    | Reply d r :: rest => (Ok r, consume d rest w1)
    | Unreachable d :: rest => (Raise RequestException, consume d rest w1)
    end.

(** [response.json()] *)
Definition response_json (r : Response) : Py json :=
  match parsed r with
  | Some j => ret j
  | None => raise JSONDecodeError
  end.

(** [d[k]] on a value that came out of [response.json()] *)
Fixpoint dict_get (k : string) (m : list (string * json)) : option json :=
  match m with
  | [] => None
  | (k', v) :: m' => if String.eqb k' k then Some v else dict_get k m'
  end.

Definition subscript (j : json) (k : string) : Py json :=
  match j with
  | JObj m => match dict_get k m with
              | Some v => ret v
              | None => raise (KeyError k)
              end
  | _ => raise TypeError
  end.

(** [str(x)] of an optional string, as an f-string formats it *)
Definition py_str (o : option string) : string :=
  match o with Some s => s | None => "None" end.

(** ** database.py *)

(** The integers SQLite stores: binding a Python int outside this range
    raises OverflowError before the statement runs. *)
Definition INT64_MIN : Z := -9223372036854775808.
Definition INT64_MAX : Z := 9223372036854775807.

Definition in_int64 (z : Z) : bool := (INT64_MIN <=? z) && (z <=? INT64_MAX).

Module Database.

Record t : Type := mk { institution : option string }.

(** [col = ?] in a WHERE clause: NULL on either side never matches. *)
Definition sql_eq (col param : option string) : bool :=
  match col, param with
  | Some a, Some b => String.eqb a b
  | _, _ => false
  end.

(** [Database.__init__] / [_init_db]: CREATE TABLE IF NOT EXISTS leaves the
    rows of both tables as they are (a file that did not exist has none). *)
Definition init (institution : option string) : Py t :=
  ret (mk institution).

Definition token_row_matches (self : t) (r : TokenRow) : bool :=
  sql_eq (Some (tk_institution r)) (institution self).

Definition get_token (self : t) : Py (option TokenData) :=
  fun w =>
    match find (token_row_matches self) (tokens w) with
    | None => (Ok None, w)
    | Some row => (Ok (Some (tk_data row)), w)
    end.

Definition same_key (a b : TokenRow) : bool :=
  String.eqb (tk_provider a) (tk_provider b)
  && String.eqb (tk_institution a) (tk_institution b).

(** INSERT ... ON CONFLICT(provider, institution) DO UPDATE SET ... *)
Fixpoint upsert (r : TokenRow) (rows : list TokenRow) : list TokenRow :=
  match rows with
  | [] => [r]
  | x :: rows' => if same_key x r then r :: rows' else x :: upsert r rows'
  end.

(** The parameters are bound first ([expires_at] and [now] must fit an
    SQLite INTEGER), then the statement runs (NOT NULL on [institution]). *)
Definition save_token (self : t) (token_data : TokenData) : Py unit :=
  now <- time_time ;;
  if negb (in_int64 (expires_at token_data) && in_int64 now) then raise OverflowError
  else
    match institution self with
    | None => raise IntegrityError
    | Some inst =>
        let row := mkTokenRow "truelayer" inst token_data now in
        fun w => (Ok tt, emit (EvSaveToken row) (set_tokens (upsert row (tokens w)) w))
    end.

Definition account_row_matches (self : t) (account_name : string)
           (r : AccountRow) : bool :=
  String.eqb (ac_name r) account_name
  && sql_eq (ac_institution r) (institution self).

Definition fetch_account (self : t) (account_name : string) : Py (option AccountRow) :=
  fun w => (Ok (find (account_row_matches self account_name) (accounts w)), w).

Definition get_account_id (self : t) (account_name : string) : Py (option string) :=
  row <- fetch_account self account_name ;;
  match row with
  | None => raise (RuntimeError (NoAccountFound account_name (institution self)))
  | Some r => ret (ac_truelayer_account_id r)
  end.

Definition is_credit_card (self : t) (account_name : string) : Py bool :=
  row <- fetch_account self account_name ;;
  match row with
  | None => raise (RuntimeError (NoAccountFound account_name (institution self)))
  | Some r => ret (String.eqb (type_text (ac_type r)) "credit")
  end.

Definition get_actual_account_id (self : t) (account_name : string)
  : Py (option string) :=
  row <- fetch_account self account_name ;;
  match row with
  | None => ret None
  | Some r => ret (ac_actual_account_id r)
  end.

Definition is_not_null (o : option string) : bool :=
  match o with Some _ => true | None => false end.

Definition get_actual_accounts (self : t) : Py (list (string * option string)) :=
  fun w =>
    (Ok (map (fun r => (ac_name r, ac_institution r))
             (filter (fun r => is_not_null (ac_actual_account_id r)) (accounts w))),
     w).

End Database.

(** ** truelayer.py *)

Module TrueLayer.

Record TrueLayerConfig : Type := mkConfig {
  client_id : string;
  client_secret : string;
  code : option string
}.

Record t : Type := mk {
  config : TrueLayerConfig;
  db : Database.t
}.

Definition TOKEN_SKEW_SECONDS : Z := 60.

Definition token_url : string := "https://auth.truelayer.com/connect/token".
Definition form_headers : list (string * string) :=
  [("content-type", "application/x-www-form-urlencoded")].

(** [int(time.time()) + data["expires_in"]]; a JSON boolean is an [int]. *)
Definition as_int (v : json) : option Z :=
  match v with
  | JInt z => Some z
  | JBool b => Some (if b then 1 else 0)
  | _ => None
  end.

Definition py_add_int (n : Z) (v : json) : Py Z :=
  match as_int v with
  | Some z => ret (n + z)
  | None => raise TypeError
  end.

(** pydantic validation of a [str] field *)
Definition as_str (v : json) : option string :=
  match v with JStr s => Some s | _ => None end.

(** [TokenData(access_token=a, refresh_token=r, token_type=ty, scope=sc,
    expires_at=e)] on values taken out of the response *)
Definition make_TokenData (a r ty sc : json) (e : Z) : Py TokenData :=
  match as_str a, as_str r, as_str ty, as_str sc with
  | Some a', Some r', Some ty', Some sc' => ret (mkTokenData a' r' ty' sc' e)
  | _, _, _, _ => raise ValidationError
  end.

Definition exchange_payload (self : t) (code : string) : list (string * string) :=
  [("grant_type", "authorization_code");
   ("client_id", client_id (config self));
   ("client_secret", client_secret (config self));
   ("code", code);
   ("redirect_uri", "https://console.truelayer.com/redirect-page")].

Definition refresh_payload (self : t) (refresh_token : string)
  : list (string * string) :=
  [("grant_type", "refresh_token");
   ("client_id", client_id (config self));
   ("client_secret", client_secret (config self));
   ("refresh_token", refresh_token)].

Definition _exchange_code_for_tokens (self : t) (code : string) : Py TokenData :=
  let payload := exchange_payload self code in
  response <- http_send (POST_form token_url form_headers payload) ;;
  data <- response_json response ;;
  if negb (status_code response =? 200) then
    raise (RuntimeError (FailedExchange (status_code response) data))
  else
    now <- time_time ;;
    expires_in <- subscript data "expires_in" ;;
    expires_at <- py_add_int now expires_in ;;
    a <- subscript data "access_token" ;;
    r <- subscript data "refresh_token" ;;
    ty <- subscript data "token_type" ;;
    sc <- subscript data "scope" ;;
    make_TokenData a r ty sc expires_at.

Definition _refresh_tokens (self : t) (refresh_token : string) : Py TokenData :=
  let payload := refresh_payload self refresh_token in
  response <- http_send (POST_form token_url form_headers payload) ;;
  data <- response_json response ;;
  if negb (status_code response =? 200) then
    raise (RuntimeError (FailedRefresh (status_code response) data))
  else
    now <- time_time ;;
    expires_in <- subscript data "expires_in" ;;
    expires_at <- py_add_int now expires_in ;;
    a <- subscript data "access_token" ;;
    r <- subscript data "refresh_token" ;;
    ty <- subscript data "token_type" ;;
    stored <- Database.get_token (db self) ;;
    match stored with
    | None => raise AttributeError       (* None.scope *)
    | Some old => make_TokenData a r ty (JStr (scope old)) expires_at
    end.

(** [not self.config.code] *)
Definition falsy (c : option string) : bool :=
  match c with
  | None => true
  | Some s => String.eqb s ""
  end.

Definition _ensure_tokens_ready (self : t) : Py unit :=
  tokens <- Database.get_token (db self) ;;
  match tokens with
  | None =>
      if falsy (code (config self)) then raise (RuntimeError NoStoredTokens)
      else
        exchanged <- _exchange_code_for_tokens self (py_str (code (config self))) ;;
        Database.save_token (db self) exchanged
  | Some tokens =>
      now <- time_time ;;
      if expires_at tokens <=? now + TOKEN_SKEW_SECONDS then
        refreshed <- _refresh_tokens self (refresh_token tokens) ;;
        Database.save_token (db self) refreshed
      else ret tt
  end.

(** [os.getenv(k, "")] *)
Definition getenv_or (k default : string) : Py string :=
  v <- getenv k ;;
  ret (match v with Some s => s | None => default end).

(** [os.getenv(k) or None] *)
Definition getenv_or_None (k : string) : Py (option string) :=
  v <- getenv k ;;
  ret (match v with
       | Some s => if String.eqb s "" then None else Some s
       | None => None
       end).

(** [TrueLayer.__init__] *)
Definition init (institution : option string) : Py t :=
  cid <- getenv_or "TRUE_LAYER_CLIENT_ID" "" ;;
  csec <- getenv_or "TRUE_LAYER_CLIENT_SECRET" "" ;;
  cde <- getenv_or_None "TRUE_LAYER_CODE" ;;
  let config := mkConfig cid csec cde in
  if String.eqb cid "" || String.eqb csec "" then
    raise (ValueError "TRUE_LAYER_CLIENT_ID and TRUE_LAYER_CLIENT_SECRET must be set")
  else
    db <- Database.init institution ;;
    let self := mk config db in
    _ensure_tokens_ready self ;;;
    ret self.

(** [f"Bearer {self.db.get_token().access_token}"] *)
Definition bearer (self : t) : Py string :=
  stored <- Database.get_token (db self) ;;
  match stored with
  | None => raise AttributeError       (* None.access_token *)
  | Some tok => ret ("Bearer " ++ access_token tok)%string
  end.

(** The tail shared by the four data calls: a reply other than 200 raises
    the call's [RuntimeError], whose text formats [response.json()]. *)
Definition checked_json (failed : Z -> json -> RuntimeMsg) (response : Response)
  : Py json :=
  if negb (status_code response =? 200) then
    data <- response_json response ;;
    raise (RuntimeError (failed (status_code response) data))
  else response_json response.

Definition cards_url : string := "https://api.truelayer.com/data/v1/cards".
Definition accounts_url : string := "https://api.truelayer.com/data/v1/accounts".

Definition _list_cards (self : t) : Py json :=
  auth <- bearer self ;;
  let headers := [("Authorization", auth); ("Content-Type", "application/json")]%string in
  response <- http_send (GET cards_url headers []) ;;
  checked_json FailedListCards response.

Definition _list_accounts (self : t) : Py json :=
  auth <- bearer self ;;
  let headers := [("Authorization", auth); ("Content-Type", "application/json")]%string in
  response <- http_send (GET accounts_url headers []) ;;
  checked_json FailedListAccounts response.

Definition card_transactions_url (card_id : option string) : string :=
  ("https://api.truelayer.com/data/v1/cards/" ++ py_str card_id ++ "/transactions")%string.

Definition account_transactions_url (account_id : option string) : string :=
  ("https://api.truelayer.com/data/v1/accounts/" ++ py_str account_id ++ "/transactions")%string.

Definition _list_card_transactions (self : t) (account_name : string)
           (date_from date_to : option string) : Py json :=
  card_id <- Database.get_account_id (db self) account_name ;;
  auth <- bearer self ;;
  let headers := [("Authorization", auth)]%string in
  let params := [("from", date_from); ("to", date_to)]%string in
  response <- http_send (GET (card_transactions_url card_id) headers params) ;;
  checked_json FailedListCardTransactions response.

Definition _list_account_transactions (self : t) (account_name : string)
           (date_from date_to : option string) : Py json :=
  account_id <- Database.get_account_id (db self) account_name ;;
  auth <- bearer self ;;
  let headers := [("Authorization", auth)]%string in
  let params := [("from", date_from); ("to", date_to)]%string in
  response <- http_send (GET (account_transactions_url account_id) headers params) ;;
  checked_json FailedListAccountTransactions response.

Definition list_transactions (self : t) (account_name : string)
           (date_from date_to : option string) : Py json :=
  is_credit_card <- Database.is_credit_card (db self) account_name ;;
  if is_credit_card then _list_card_transactions self account_name date_from date_to
  else _list_account_transactions self account_name date_from date_to.

End TrueLayer.

(** ** api.py *)

Module Api.

(** [len(x)] on a value that came out of [response.json()] *)
Definition py_len (j : json) : Py nat :=
  match j with
  | JObj m => ret (length m)
  | JArr l => ret (length l)
  | JStr s => ret (String.length s)
  | _ => raise TypeError
  end.

Definition json_of_option (o : option string) : json :=
  match o with Some s => JStr s | None => JNull end.

(** [resp.ok]: the status is not a 4xx or 5xx one *)
Definition ok (r : Response) : bool :=
  negb ((400 <=? status_code r) && (status_code r <? 600)).

Definition import_transactions (institution : option string) (account : string)
  : Py json :=
  client <- TrueLayer.init institution ;;
  now <- time_time ;;
  date_to <- (fun w => (Ok (calendar w now), w)) ;;
  transactions <- TrueLayer.list_transactions client account
                    (Some "2025-11-01") (Some date_to) ;;
  n <- py_len transactions ;;
  log (EvLogInfo (Fetched n)) ;;;
  actual_account_id <- Database.get_actual_account_id (TrueLayer.db client) account ;;
  results <- subscript transactions "results" ;;
  let body := JObj [("account_id", json_of_option actual_account_id);
                    ("transactions", results)] in
  zazu <- getenv "ZAZU_URL" ;;
  let zazu_url := match zazu with Some u => u | None => "http://localhost:3000" end in
  resp <- try_except (http_send (POST_json (zazu_url ++ "/import")%string body))
            (fun e => match e with
                      | RequestException => raise (HTTPException 502 ImportServiceError)
                      | _ => raise e
                      end) ;;
  if negb (ok resp) then
    raise (HTTPException (status_code resp) (ImportFailed (text resp)))
  else
    try_except (response_json resp)
      (fun e => match e with
                | JSONDecodeError | ValueError _ =>
                    ret (JObj [("message", JStr (text resp))])
                | _ => raise e
                end).

(** One turn of the [for] loop of [import_all_accounts]: the [try] around
    [import_transactions] and its [except Exception] handler. *)
Definition import_one (a : string * option string) : Py unit :=
  let '(name, institution) := a in
  try_except (import_transactions institution name ;;; ret tt)
    (fun e => log (EvLogException (FailedImporting name institution) e)).

Fixpoint for_each (accounts : list (string * option string)) : Py unit :=
  match accounts with
  | [] => ret tt
  | a :: rest => import_one a ;;; for_each rest
  end.

Definition import_all_accounts : Py unit :=
  db <- Database.init None ;;
  accounts <- Database.get_actual_accounts db ;;
  for_each accounts.

End Api.

(** * Vocabulary of the properties *)

Section StoreVocabulary.

Import Database.

Definition key (r : TokenRow) : string * string :=
  (tk_provider r, tk_institution r).

(** What every store written by this code satisfies: the primary key holds,
    and the only provider is the fixed one of [save_token]. *)
Definition store_ok (rows : list TokenRow) : Prop :=
  NoDup (map key rows) /\ Forall (fun r => tk_provider r = "truelayer") rows.


(** [save_token] can store this record at time [now]. *)
Definition storable (td : TokenData) (now : Z) : bool :=
  in_int64 (expires_at td) && in_int64 now.




(** The record [get_token] finds for a store object. *)
Definition lookup_token (self : Database.t) (w : World) : option TokenData :=
  match find (token_row_matches self) (tokens w) with
  | Some row => Some (tk_data row)
  | None => None
  end.

Definition stored (inst : string) (w : World) : option TokenData :=
  lookup_token (mk (Some inst)) w.

End StoreVocabulary.

Section LifecycleVocabulary.

Import TrueLayer.

(** A computation that leaves the world as it found it. *)
Definition readonly {A} (c : Py A) : Prop := forall w, snd (c w) = w.

(** The configuration [TrueLayer.__init__] reads from the environment. *)
Definition env_or (w : World) (k default : string) : string :=
  match environ w k with Some s => s | None => default end.

Definition config_of_env (w : World) : TrueLayerConfig :=
  mkConfig (env_or w "TRUE_LAYER_CLIENT_ID" "")
           (env_or w "TRUE_LAYER_CLIENT_SECRET" "")
           (match environ w "TRUE_LAYER_CODE" with
            | Some s => if String.eqb s "" then None else Some s
            | None => None
            end).

(** The guard of [__init__] on the client id and secret lets it through. *)
Definition client_configured (w : World) : bool :=
  negb (String.eqb (env_or w "TRUE_LAYER_CLIENT_ID" "") ""
        || String.eqb (env_or w "TRUE_LAYER_CLIENT_SECRET" "") "").

(** The manager object [__init__] is building in world [w]. *)
Definition manager (institution : option string) (w : World) : TrueLayer.t :=
  TrueLayer.mk (config_of_env w) (Database.mk institution).

Definition refresh_request (self : TrueLayer.t) (tok : TokenData) : Request :=
  POST_form token_url form_headers (refresh_payload self (refresh_token tok)).

Definition exchange_request (self : TrueLayer.t) (code : string) : Request :=
  POST_form token_url form_headers (exchange_payload self code).

(** Seconds of validity a token has left in world [w]. *)
Definition remaining_lifetime (tok : TokenData) (w : World) : Z :=
  expires_at tok - clock w.

(** C1 as the specification words it, for a manager built in world [w0]
    and used [d] seconds later: the token read for the Authorization header
    has at least [TOKEN_SKEW_SECONDS] left at that moment. *)
Definition fresh_at_use (institution : option string) (w0 : World) (d : nat) : Prop :=
  forall self w1 auth w2,
    init institution w0 = (Ok self, w1) ->
    bearer self (advance d w1) = (Ok auth, w2) ->
    exists tok,
      lookup_token (db self) w2 = Some tok /\
      auth = ("Bearer " ++ access_token tok)%string /\
      TOKEN_SKEW_SECONDS <= remaining_lifetime tok w2.

(** The upstream listing a request goes to. *)
Inductive Endpoint : Type := CardTransactions | AccountTransactions | OtherEndpoint.

Definition endpoint_of (rq : Request) : Endpoint :=
  match rq with
  | GET url _ _ =>
      if String.prefix "https://api.truelayer.com/data/v1/cards/" url
      then CardTransactions
      else if String.prefix "https://api.truelayer.com/data/v1/accounts/" url
           then AccountTransactions
           else OtherEndpoint
  | _ => OtherEndpoint
  end.

End LifecycleVocabulary.

Section CycleVocabulary.

(** Number of [logging.exception] records among events. *)
Fixpoint failures (evs : list Event) : nat :=
  match evs with
  | [] => O
  | EvLogException _ _ :: rest => S (failures rest)
  | _ :: rest => failures rest
  end.

(** A computation that only adds events to the trace, none of them a
    [logging.exception] record. *)
Definition quiet {A} (c : Py A) : Prop :=
  forall w, exists evs, trace (snd (c w)) = trace w ++ evs /\ failures evs = O.

(** [import_transactions] for an account as [get_actual_accounts] lists it *)
Definition import_account (a : string * option string) : Py json :=
  Api.import_transactions (snd a) (fst a).

(** The world one turn of the loop leaves: the one its import left, with
    one more [logging.exception] record when the import raised. *)
Definition turn (w : World) (a : string * option string) : World :=
  match import_account a w with
  | (Ok _, w') => w'
  | (Raise e, w') => emit (EvLogException (FailedImporting (fst a) (snd a)) e) w'
  end.

Definition cycle (l : list (string * option string)) (w : World) : World :=
  fold_left turn l w.

(** Number of accounts of [l] whose import raises, each run in the world
    the turns before it left. *)
Fixpoint raised (l : list (string * option string)) (w : World) : nat :=
  match l with
  | [] => O
  | a :: rest =>
      (match fst (import_account a w) with Raise _ => 1 | Ok _ => 0 end
       + raised rest (turn w a))%nat
  end.

Definition active_accounts (w : World) : list (string * option string) :=
  map (fun r => (ac_name r, ac_institution r))
      (filter (fun r => Database.is_not_null (ac_actual_account_id r)) (accounts w)).

End CycleVocabulary.

(** * Fixtures *)

Definition fixture_environ (k : string) : option string :=
  if String.eqb k "TRUE_LAYER_CLIENT_ID" then Some "client"
  else if String.eqb k "TRUE_LAYER_CLIENT_SECRET" then Some "secret"
  else None.

Definition fixture_calendar (_ : Z) : string := "2025-12-01".

Definition fixture_accounts : list AccountRow :=
  [ mkAccountRow 1 "creditcard1" credit (Some "barclays") (Some "tl-card-1") (Some "actual-1");
    mkAccountRow 2 "checking1" debit (Some "barclays") (Some "tl-acc-2") (Some "actual-2");
    mkAccountRow 3 "savings1" debit (Some "barclays") None (Some "actual-3");
    mkAccountRow 4 "dormant1" debit (Some "barclays") (Some "tl-acc-4") None ].

Definition fixture_token (expires : Z) : TokenData :=
  mkTokenData "access-0" "refresh-0" "Bearer" "info accounts cards" expires.

Definition fixture_world (now : Z) (rows : list TokenRow) (replies : list NetReply)
  : World :=
  mkWorld now fixture_environ fixture_calendar rows fixture_accounts replies [].

Definition fixture_row (inst : string) (expires : Z) : TokenRow :=
  mkTokenRow "truelayer" inst (fixture_token expires) 0.

Definition json_reply (status : Z) (body : json) : NetReply :=
  Reply 1 (mkResponse status "(json)" (Some body)).

Definition html_reply (status : Z) : NetReply :=
  Reply 1 (mkResponse status "<html>Bad Gateway</html>" None).

(** A cycle over the three active accounts of the fixture: the fetch of the
    second one is answered with status 500. *)
Definition cycle_world : World :=
  fixture_world 1000 [fixture_row "barclays" 5000]
    [ json_reply 200 (JObj [("results", JArr [])]);
      json_reply 200 (JObj [("status", JStr "ok")]);
      json_reply 500 (JObj [("error", JStr "internal_server_error")]);
      json_reply 200 (JObj [("results", JArr [])]);
      json_reply 200 (JObj [("status", JStr "ok")]) ].

(** * The rest of api.py *)

Module ApiRoutes.

(** [@app.get("/list_accounts/{institution}")] *)
Definition list_accounts (institution : option string) : Py json :=
  client <- TrueLayer.init institution ;;
  TrueLayer._list_accounts client.

(** [@app.get("/list_cards/{institution}")] *)
Definition list_cards (institution : option string) : Py json :=
  client <- TrueLayer.init institution ;;
  TrueLayer._list_cards client.

(** [@app.get("/import/transactions")] *)
Definition import_transactions_root : Py json :=
  Api.import_all_accounts ;;;
  ret (JObj [("status", JStr "imported all accounts")]).

(** [app.state] as [start_periodic_import_task] uses it, with the tasks
    handed to [asyncio.create_task] so far. *)
Record AppState : Type := mkAppState {
  import_task_started : option bool;   (* None: the attribute is not set *)
  import_task : option nat;            (* the task created, by its number *)
  tasks_created : nat;                 (* calls of asyncio.create_task *)
  scheduled_logged : nat               (* "... task scheduled" records *)
}.

(** [getattr(app.state, "import_task_started", False)] as a condition *)
Definition started (s : AppState) : bool :=
  match import_task_started s with
  | Some b => b
  | None => false
  end.

(** [start_periodic_import_task] *)
Definition start_periodic_import_task (s : AppState) : AppState :=
  if started s then s
  else mkAppState (Some true) (Some (tasks_created s)) (S (tasks_created s))
                  (S (scheduled_logged s)).

End ApiRoutes.

(** * Vocabulary of the further properties *)

Section FurtherVocabulary.

(** The row has this primary key. *)
Definition has_key (provider institution : string) (r : TokenRow) : bool :=
  String.eqb (tk_provider r) provider && String.eqb (tk_institution r) institution.

Definition is_token_post (e : Event) : bool :=
  match e with
  | EvRequest (POST_form url _ _) => String.eqb url TrueLayer.token_url
  | _ => false
  end.

Definition is_downstream_post (e : Event) : bool :=
  match e with EvRequest (POST_json _ _) => true | _ => false end.

(** [l1] is what is left of [l2] after some of its first elements. *)
Definition suffix_of {A} (l1 l2 : list A) : Prop := exists pre, l2 = pre ++ l1.

(** A computation whose final world is always related to its initial one. *)
Definition keeps (R : World -> World -> Prop) {A} (c : Py A) : Prop :=
  forall w, R w (snd (c w)).

(** From [w] to [w'] the trace has grown by events none of which is a [p]. *)
Definition grew_without (p : Event -> bool) (w w' : World) : Prop :=
  exists evs, trace w' = trace w ++ evs /\ forallb (fun e => negb (p e)) evs = true.

(** From [w] to [w'] the accounts table, the environment and the calendar
    are the same, the clock has not gone back, and the replies left are the
    ones not yet taken. *)
Definition steady (w w' : World) : Prop :=
  accounts w' = accounts w /\
  environ w' = environ w /\
  calendar w' = calendar w /\
  clock w <= clock w' /\
  suffix_of (network w') (network w).

End FurtherVocabulary.

(** * Properties *)

(** ** Credential store *)

Section Store.

Import Database.



Lemma store_ok_nil : store_ok [].
Proof. split; constructor. Qed.

Lemma same_key_true a b : same_key a b = true <-> key a = key b.
Proof.
  unfold same_key, key. rewrite andb_true_iff, !String.eqb_eq.
  split; [intros [-> ->]; reflexivity | intros H; inversion H; auto].
Qed.






(** Reading by institution after a write, in a store with one provider. *)
Lemma find_upsert r rows inst :
  tk_provider r = "truelayer" ->
  Forall (fun x => tk_provider x = "truelayer") rows ->
  find (token_row_matches (mk (Some inst))) (upsert r rows) =
  if String.eqb (tk_institution r) inst then Some r
  else find (token_row_matches (mk (Some inst))) rows.
Proof.
  intros Hr. induction 1 as [|x rows Hx Hrows IH]; simpl.
  - unfold token_row_matches at 1; simpl. destruct (String.eqb _ inst); reflexivity.
  - unfold same_key. rewrite Hx, Hr, String.eqb_refl. simpl.
    destruct (String.eqb (tk_institution x) (tk_institution r)) eqn:E.
    + apply String.eqb_eq in E. simpl.
      unfold token_row_matches at 1 3; simpl. rewrite E.
      destruct (String.eqb (tk_institution r) inst); reflexivity.
    + simpl. unfold token_row_matches at 1 3; simpl.
      destruct (String.eqb (tk_institution x) inst) eqn:E2; [|exact IH].
      apply String.eqb_eq in E2. subst inst.
      rewrite String.eqb_sym, E. reflexivity.
Qed.

Lemma save_token_run inst td w :
  storable td (clock w) = true ->
  save_token (mk (Some inst)) td w =
  (Ok tt, emit (EvSaveToken (mkTokenRow "truelayer" inst td (clock w)))
            (set_tokens (upsert (mkTokenRow "truelayer" inst td (clock w)) (tokens w)) w)).
Proof.
  intros H. unfold save_token, bind, time_time. fold (storable td (clock w)).
  rewrite H. reflexivity.
Qed.

Lemma save_token_null td w :
  storable td (clock w) = true ->
  save_token (mk None) td w = (Raise IntegrityError, w).
Proof.
  intros H. unfold save_token, bind, time_time. fold (storable td (clock w)).
  rewrite H. reflexivity.
Qed.

Lemma save_token_overflow self td w :
  storable td (clock w) = false ->
  save_token self td w = (Raise OverflowError, w).
Proof.
  intros H. unfold save_token, bind, time_time. fold (storable td (clock w)).
  rewrite H. reflexivity.
Qed.

(** [save_token] either writes its row or raises and writes nothing. *)
Lemma save_token_cases self td w :
  (exists inst,
      institution self = Some inst /\ storable td (clock w) = true /\
      save_token self td w =
      (Ok tt, emit (EvSaveToken (mkTokenRow "truelayer" inst td (clock w)))
                (set_tokens (upsert (mkTokenRow "truelayer" inst td (clock w)) (tokens w)) w)))
  \/ (exists e, save_token self td w = (Raise e, w)).
Proof.
  destruct (storable td (clock w)) eqn:Hs.
  - destruct self as [[inst|]].
    + left. exists inst. repeat split. apply save_token_run, Hs.
    + right. eexists. apply save_token_null, Hs.
  - right. eexists. apply save_token_overflow, Hs.
Qed.

Lemma save_token_ok self td w u w' :
  save_token self td w = (Ok u, w') ->
  exists inst,
    institution self = Some inst /\ storable td (clock w) = true /\
    w' = emit (EvSaveToken (mkTokenRow "truelayer" inst td (clock w)))
              (set_tokens (upsert (mkTokenRow "truelayer" inst td (clock w)) (tokens w)) w).
Proof.
  intros H. destruct (save_token_cases self td w) as [(inst & Hi & Hs & Hr)|[e Hr]];
    rewrite Hr in H; [|discriminate].
  inversion H. eauto.
Qed.

Lemma get_token_lookup self w :
  get_token self w = (Ok (lookup_token self w), w).
Proof.
  unfold get_token, lookup_token.
  destruct (find _ (tokens w)); reflexivity.
Qed.



End Store.

(** ** Claims on the credential store *)

Section StoreClaims.

Import Database.

Lemma Permutation_filter_bool {A} (f : A -> bool) (l l' : list A) :
  Permutation l l' -> Permutation (filter f l) (filter f l').
Proof.
  induction 1 as [|x l l' H IH|x y l|l l' l'' H1 IH1 H2 IH2]; simpl.
  - constructor.
  - destruct (f x); [constructor|]; exact IH.
  - destruct (f x), (f y); try reflexivity. constructor.
  - etransitivity; eassumption.
Qed.

Lemma is_not_null_iff (o : option string) : is_not_null o = true <-> o <> None.
Proof. destruct o; simpl; split; congruence. Qed.

(** C7. [get_actual_accounts] returns the (name, institution) pairs of
    exactly the account rows whose [actual_account_id] is not NULL, it
    leaves the store as it is, and a table holding the same rows in another
    order gives the same pairs up to order. *)
Theorem get_actual_accounts_exact (self : Database.t) (w w2 : World) :
  Permutation (accounts w) (accounts w2) ->
  exists l l2,
    get_actual_accounts self w = (Ok l, w) /\
    get_actual_accounts self w2 = (Ok l2, w2) /\
    (forall p, In p l <->
               exists r, In r (accounts w) /\ ac_actual_account_id r <> None /\
                         p = (ac_name r, ac_institution r)) /\
    Permutation l l2.
Proof.
  intros Hperm. unfold get_actual_accounts.
  eexists. eexists. split; [reflexivity|]. split; [reflexivity|]. split.
  - intros p. rewrite in_map_iff. split.
    + intros [r [Hp Hin]]. apply filter_In in Hin. destruct Hin as [Hin Hnn].
      exists r. rewrite <- is_not_null_iff. auto.
    + intros [r [Hin [Hnn Hp]]]. exists r. split; [auto|].
      apply filter_In. rewrite is_not_null_iff. auto.
  - apply Permutation_map, Permutation_filter_bool, Hperm.
Qed.

Lemma get_actual_accounts_exact_witness :
  exists l l2,
    get_actual_accounts (mk None) (fixture_world 0 [] []) = (Ok l, fixture_world 0 [] []) /\
    get_actual_accounts (mk None)
      (mkWorld 0 fixture_environ fixture_calendar [] (rev fixture_accounts) [] [])
    = (Ok l2, mkWorld 0 fixture_environ fixture_calendar [] (rev fixture_accounts) [] []) /\
    (forall p, In p l <->
               exists r, In r fixture_accounts /\ ac_actual_account_id r <> None /\
                         p = (ac_name r, ac_institution r)) /\
    Permutation l l2.
Proof.
  apply (get_actual_accounts_exact (mk None) (fixture_world 0 [] [])
           (mkWorld 0 fixture_environ fixture_calendar [] (rev fixture_accounts) [] [])).
  simpl. apply Permutation_rev.
Defined.





(** C9. When no account row matches (name, institution), [get_account_id]
    and [is_credit_card] raise the "No account found" error, while
    [get_actual_account_id] returns None; the store is left as it was. *)
Theorem lookups_without_row (self : Database.t) (account_name : string) (w : World) :
  (forall r, In r (accounts w) -> account_row_matches self account_name r = false) ->
  get_account_id self account_name w =
    (Raise (NotFound account_name (institution self)), w) /\
  is_credit_card self account_name w =
    (Raise (NotFound account_name (institution self)), w) /\
  get_actual_account_id self account_name w = (Ok None, w).
Proof.
  intros Hnone.
  assert (Hfind : find (account_row_matches self account_name) (accounts w) = None).
  { destruct (find _ (accounts w)) as [r|] eqn:E; [|reflexivity].
    apply find_some in E. destruct E as [Hin Hm].
    rewrite (Hnone r Hin) in Hm. discriminate. }
  unfold get_account_id, is_credit_card, get_actual_account_id, fetch_account, bind.
  rewrite Hfind. repeat split.
Qed.

Lemma lookups_without_row_witness :
  let self := mk (Some "barclays") in
  let w := fixture_world 0 [] [] in
  get_account_id self "ghost" w = (Raise (NotFound "ghost" (Some "barclays")), w) /\
  is_credit_card self "ghost" w = (Raise (NotFound "ghost" (Some "barclays")), w) /\
  get_actual_account_id self "ghost" w = (Ok None, w).
Proof.
  intros self w. apply (lookups_without_row self "ghost" w).
  intros r Hin. simpl in Hin.
  repeat (destruct Hin as [<-|Hin]; [reflexivity|]). destruct Hin.
Defined.

(** C10. When the row that answers the lookup has a NULL
    [truelayer_account_id], [get_account_id] does not raise: it returns
    None, which is not a string. *)
Theorem get_account_id_null_column (self : Database.t) (account_name : string)
        (w : World) (r : AccountRow) :
  find (account_row_matches self account_name) (accounts w) = Some r ->
  ac_truelayer_account_id r = None ->
  get_account_id self account_name w = (Ok None, w).
Proof.
  intros Hfind Hnull.
  unfold get_account_id, fetch_account, bind. rewrite Hfind, Hnull. reflexivity.
Qed.

Lemma get_account_id_null_column_witness :
  get_account_id (mk (Some "barclays")) "savings1" (fixture_world 0 [] []) =
  (Ok None, fixture_world 0 [] []).
Proof.
  apply (get_account_id_null_column (mk (Some "barclays")) "savings1"
           (fixture_world 0 [] [])
           (mkAccountRow 3 "savings1" debit (Some "barclays") None (Some "actual-3")));
    reflexivity.
Defined.

End StoreClaims.

(** ** Token lifecycle *)

Section Lifecycle.

Import TrueLayer.

Lemma http_send_trace rq w :
  trace (snd (http_send rq w)) = trace w ++ [EvRequest rq].
Proof.
  unfold http_send. simpl. destruct (network w) as [|[d r|d] rest]; reflexivity.
Qed.

Lemma http_send_tokens rq w :
  tokens (snd (http_send rq w)) = tokens w.
Proof.
  unfold http_send. simpl. destruct (network w) as [|[d r|d] rest]; reflexivity.
Qed.

Lemma http_send_reply rq w d r rest :
  network w = Reply d r :: rest ->
  http_send rq w = (Ok r, consume d rest (emit (EvRequest rq) w)).
Proof. intros H. unfold http_send. simpl. rewrite H. reflexivity. Qed.

(** *** Read-only computations *)

Lemma readonly_ret {A} (a : A) : readonly (ret a).
Proof. intros w. reflexivity. Qed.

Lemma readonly_raise {A} (e : Exn) : readonly (@raise A e).
Proof. intros w. reflexivity. Qed.

Lemma readonly_bind {A B} (c : Py A) (k : A -> Py B) :
  readonly c -> (forall a, readonly (k a)) -> readonly (bind c k).
Proof.
  intros Hc Hk w. unfold bind. specialize (Hc w).
  destruct (c w) as [[a|e] w']; simpl in *; subst; [apply Hk | reflexivity].
Qed.

Lemma readonly_try_except {A} (c : Py A) (h : Exn -> Py A) :
  readonly c -> (forall e, readonly (h e)) -> readonly (try_except c h).
Proof.
  intros Hc Hh w. unfold try_except. specialize (Hc w).
  destruct (c w) as [[a|e] w']; simpl in *; subst; [reflexivity | apply Hh].
Qed.

Lemma readonly_time : readonly time_time.
Proof. intros w. reflexivity. Qed.

Lemma readonly_getenv k : readonly (getenv k).
Proof. intros w. reflexivity. Qed.

Lemma readonly_get_token self : readonly (Database.get_token self).
Proof. intros w. rewrite get_token_lookup. reflexivity. Qed.

Lemma readonly_fetch_account self n : readonly (Database.fetch_account self n).
Proof. intros w. reflexivity. Qed.

Lemma readonly_response_json r : readonly (response_json r).
Proof. unfold response_json. destruct (parsed r); intros w; reflexivity. Qed.

Lemma readonly_subscript j k : readonly (subscript j k).
Proof.
  unfold subscript. destruct j; try (intros w; reflexivity).
  destruct (dict_get k m); intros w; reflexivity.
Qed.

Lemma readonly_py_add_int n v : readonly (py_add_int n v).
Proof. unfold py_add_int. destruct (as_int v); intros w; reflexivity. Qed.

Lemma readonly_make_TokenData a r ty sc e : readonly (make_TokenData a r ty sc e).
Proof.
  unfold make_TokenData.
  destruct (as_str a), (as_str r), (as_str ty), (as_str sc); intros w; reflexivity.
Qed.

Ltac readonly_step :=
  first
    [ apply readonly_ret | apply readonly_raise | apply readonly_time
    | apply readonly_getenv | apply readonly_get_token
    | apply readonly_fetch_account | apply readonly_response_json
    | apply readonly_subscript | apply readonly_py_add_int
    | apply readonly_make_TokenData
    | apply readonly_bind | apply readonly_try_except
    | match goal with
      | |- readonly (if ?b then _ else _) => destruct b
      | |- readonly (match ?x with _ => _ end) => destruct x
      | |- forall _, _ => intro
      end ].

Ltac readonly_tac := repeat readonly_step.

(** The world a computation leaves when everything after its first step
    only reads. *)
Lemma bind_then_readonly {A B} (c : Py A) (k : A -> Py B) w :
  (forall a, readonly (k a)) -> snd (bind c k w) = snd (c w).
Proof.
  intros Hk. unfold bind. destruct (c w) as [[a|e] w']; simpl; [apply Hk | reflexivity].
Qed.

Lemma readonly_bearer self : readonly (bearer self).
Proof. unfold bearer. readonly_tac. Qed.

Lemma readonly_checked_json f r : readonly (checked_json f r).
Proof. unfold checked_json. readonly_tac. Qed.

Lemma readonly_get_account_id self n : readonly (Database.get_account_id self n).
Proof. unfold Database.get_account_id. readonly_tac. Qed.

Lemma readonly_is_credit_card self n : readonly (Database.is_credit_card self n).
Proof. unfold Database.is_credit_card. readonly_tac. Qed.

Lemma readonly_get_actual_account_id self n :
  readonly (Database.get_actual_account_id self n).
Proof. unfold Database.get_actual_account_id. readonly_tac. Qed.

(** *** The two requests to the token endpoint *)

Lemma refresh_tokens_world self rt w :
  snd (_refresh_tokens self rt w) =
  snd (http_send (POST_form token_url form_headers (refresh_payload self rt)) w).
Proof.
  unfold _refresh_tokens. apply bind_then_readonly. readonly_tac.
Qed.

Lemma exchange_world self c w :
  snd (_exchange_code_for_tokens self c w) =
  snd (http_send (POST_form token_url form_headers (exchange_payload self c)) w).
Proof.
  unfold _exchange_code_for_tokens. apply bind_then_readonly. readonly_tac.
Qed.

(** The request [_refresh_tokens] sends. *)
Lemma ensure_fresh self w tok :
  lookup_token (db self) w = Some tok ->
  clock w + TOKEN_SKEW_SECONDS < expires_at tok ->
  _ensure_tokens_ready self w = (Ok tt, w).
Proof.
  intros Hl Hlt. unfold _ensure_tokens_ready, bind.
  rewrite get_token_lookup, Hl. simpl.
  destruct (Z.leb_spec (expires_at tok) (clock w + TOKEN_SKEW_SECONDS)); [lia|reflexivity].
Qed.

Lemma ensure_due self w tok :
  lookup_token (db self) w = Some tok ->
  expires_at tok <= clock w + TOKEN_SKEW_SECONDS ->
  _ensure_tokens_ready self w =
  (refreshed <- _refresh_tokens self (refresh_token tok) ;;
   Database.save_token (db self) refreshed) w.
Proof.
  intros Hl Hle. unfold _ensure_tokens_ready. unfold bind at 1.
  rewrite get_token_lookup, Hl. unfold bind at 1. simpl.
  destruct (Z.leb_spec (expires_at tok) (clock w + TOKEN_SKEW_SECONDS)); [reflexivity|lia].
Qed.

Lemma ensure_no_code self w :
  lookup_token (db self) w = None ->
  falsy (code (config self)) = true ->
  _ensure_tokens_ready self w = (Raise CredentialsUnavailable, w).
Proof.
  intros Hl Hc. unfold _ensure_tokens_ready, bind.
  rewrite get_token_lookup, Hl, Hc. reflexivity.
Qed.

Lemma lookup_token_institution self w tok :
  lookup_token self w = Some tok -> exists inst, Database.institution self = Some inst.
Proof.
  unfold lookup_token. destruct (find _ (tokens w)) as [row|] eqn:E; [|discriminate].
  intros _. apply find_some in E. destruct E as [_ Hm].
  unfold Database.token_row_matches, Database.sql_eq in Hm.
  destruct (Database.institution self) as [inst|]; [eauto | discriminate].
Qed.

(** [__init__] up to the call of [_ensure_tokens_ready]. *)
Lemma init_configured inst w :
  client_configured w = true ->
  init inst w =
  (_ensure_tokens_ready (manager inst w) ;;; ret (manager inst w)) w.
Proof.
  unfold client_configured, init, getenv_or, getenv_or_None, getenv, bind, ret.
  intros H. apply negb_true_iff in H. simpl. fold (env_or w "TRUE_LAYER_CLIENT_ID" "").
  fold (env_or w "TRUE_LAYER_CLIENT_SECRET" ""). rewrite H. reflexivity.
Qed.

Lemma init_unconfigured inst w :
  client_configured w = false ->
  init inst w =
  (Raise (ValueError "TRUE_LAYER_CLIENT_ID and TRUE_LAYER_CLIENT_SECRET must be set"), w).
Proof.
  unfold client_configured, init, getenv_or, getenv_or_None, getenv, bind, ret.
  intros H. apply negb_false_iff in H. simpl. fold (env_or w "TRUE_LAYER_CLIENT_ID" "").
  fold (env_or w "TRUE_LAYER_CLIENT_SECRET" ""). rewrite H. reflexivity.
Qed.

(** The world after the refresh branch of [_ensure_tokens_ready]. *)
Lemma refresh_branch self tok w :
  lookup_token (db self) w = Some tok ->
  let run := (refreshed <- _refresh_tokens self (refresh_token tok) ;;
              Database.save_token (db self) refreshed) w in
  let w1 := snd (http_send (refresh_request self tok) w) in
  match fst run with
  | Raise _ => snd run = w1
  | Ok _ => exists row, snd run = emit (EvSaveToken row)
                                      (set_tokens (Database.upsert row (tokens w1)) w1)
  end.
Proof.
  intros Hl run w1.
  destruct (lookup_token_institution _ _ _ Hl) as [inst Hinst].
  pose proof (refresh_tokens_world self (refresh_token tok) w) as Hw.
  fold (refresh_request self tok) in Hw. fold w1 in Hw.
  subst run. unfold bind.
  destruct (_refresh_tokens self (refresh_token tok) w) as [[td|e] w'] eqn:E;
    simpl in Hw; subst w'; simpl; [|reflexivity].
  destruct (save_token_cases (db self) td w1) as [(i & _ & _ & Hr)|[e Hr]];
    rewrite Hr; simpl; eauto.
Qed.

(** ** Claims on the token lifecycle *)

(** C4. With no token row for the institution and no authorization code in
    the configuration, [_ensure_tokens_ready] of the manager under
    construction raises the "No stored tokens" error and leaves the world as
    it was: no request is sent and no row is written.  [__init__] as a whole
    fails too and leaves the world as it was; its error is that same one once
    its guard on the client id and secret has let it through. *)
Theorem no_token_no_code (institution : option string) (w : World) :
  Database.get_token (Database.mk institution) w = (Ok None, w) ->
  code (config_of_env w) = None ->
  _ensure_tokens_ready (manager institution w) w = (Raise CredentialsUnavailable, w) /\
  (exists e, init institution w = (Raise e, w)) /\
  (client_configured w = true ->
   init institution w = (Raise CredentialsUnavailable, w)).
Proof.
  intros Hg Hc. rewrite get_token_lookup in Hg.
  assert (Hl : lookup_token (Database.mk institution) w = None) by congruence.
  assert (He : _ensure_tokens_ready (manager institution w) w
               = (Raise CredentialsUnavailable, w)).
  { apply ensure_no_code; [exact Hl|].
    change (falsy (code (config_of_env w)) = true). rewrite Hc. reflexivity. }
  assert (Hi : client_configured w = true ->
               init institution w = (Raise CredentialsUnavailable, w)).
  { intros Hcfg. rewrite init_configured by exact Hcfg.
    unfold bind. rewrite He. reflexivity. }
  split; [exact He|]. split; [|exact Hi].
  destruct (client_configured w) eqn:Hcfg.
  - eexists. apply Hi. reflexivity.
  - eexists. apply init_unconfigured. exact Hcfg.
Qed.

Lemma no_token_no_code_witness :
  let w := fixture_world 1000 [] [json_reply 200 JNull] in
  _ensure_tokens_ready (manager (Some "barclays") w) w = (Raise CredentialsUnavailable, w) /\
  init (Some "barclays") w = (Raise CredentialsUnavailable, w).
Proof.
  intros w.
  destruct (no_token_no_code (Some "barclays") w eq_refl eq_refl) as (H1 & _ & H2).
  split; [exact H1 | exact (H2 eq_refl)].
Defined.

(** C3, as the code has it. With a token stored, [_ensure_tokens_ready] sends the
    refresh request if and only if [expires_at <= now + 60].  Whenever it
    fails the rows of [tokens] are the ones it found.  When the reply to the
    refresh request has a status other than 200 and a JSON body, it fails
    with the "Failed to refresh token" error carrying that status and body. *)
Theorem refresh_at_construction (self : TrueLayer.t) (w : World) (tok : TokenData) :
  lookup_token (db self) w = Some tok ->
  let run := _ensure_tokens_ready self w in
  (exists evs, trace (snd run) = trace w ++ evs /\
               (In (EvRequest (refresh_request self tok)) evs <->
                expires_at tok <= clock w + TOKEN_SKEW_SECONDS)) /\
  (forall e, fst run = Raise e -> tokens (snd run) = tokens w) /\
  (forall d resp rest data,
      expires_at tok <= clock w + TOKEN_SKEW_SECONDS ->
      network w = Reply d resp :: rest ->
      status_code resp <> 200 ->
      parsed resp = Some data ->
      fst run = Raise (TokenRefreshFailed (status_code resp) data)).
Proof.
  intros Hl run.
  destruct (Z.le_gt_cases (expires_at tok) (clock w + TOKEN_SKEW_SECONDS)) as [Hdue|Hfresh].
  - pose proof (refresh_branch self tok w Hl) as Hb. cbv zeta in Hb.
    subst run. rewrite (ensure_due self w tok Hl Hdue).
    set (run := bind _ _ w) in *.
    pose proof (http_send_trace (refresh_request self tok) w) as Ht.
    pose proof (http_send_tokens (refresh_request self tok) w) as Hk.
    split; [|split].
    + destruct (fst run).
      * destruct Hb as [row ->]. simpl. rewrite Ht, <- app_assoc.
        eexists. split; [reflexivity|]. simpl. tauto.
      * rewrite Hb, Ht. eexists. split; [reflexivity|]. simpl. tauto.
    + intros e He. rewrite He in Hb. rewrite Hb. exact Hk.
    + intros d resp rest data _ Hnet Hst Hp. subst run.
      unfold _refresh_tokens. unfold bind.
      fold (refresh_request self tok).
      rewrite (http_send_reply _ _ _ _ _ Hnet).
      unfold response_json. rewrite Hp. simpl.
      apply Z.eqb_neq in Hst. rewrite Hst. reflexivity.
  - subst run. rewrite (ensure_fresh self w tok Hl) by lia. simpl.
    split; [|split].
    + exists []. rewrite app_nil_r. split; [reflexivity|]. simpl. split; [tauto|lia].
    + intros e He. discriminate.
    + intros; lia.
Qed.

Lemma refresh_at_construction_witness :
  let w := fixture_world 1000 [fixture_row "barclays" 1030]
             [json_reply 401 (JObj [("error", JStr "invalid_grant")])] in
  let run := _ensure_tokens_ready (manager (Some "barclays") w) w in
  fst run = Raise (TokenRefreshFailed 401 (JObj [("error", JStr "invalid_grant")])) /\
  tokens (snd run) = tokens w.
Proof.
  intros w run.
  destruct (refresh_at_construction (manager (Some "barclays") w) w
              (fixture_token 1030) eq_refl) as [_ [Hkeep Hfail]].
  assert (H : fst run = Raise (TokenRefreshFailed 401 (JObj [("error", JStr "invalid_grant")]))).
  { apply (Hfail 1%nat (mkResponse 401 "(json)" (Some (JObj [("error", JStr "invalid_grant")]))) []
             (JObj [("error", JStr "invalid_grant")])).
    - vm_compute. discriminate.
    - reflexivity.
    - simpl. discriminate.
    - reflexivity. }
  split; [exact H | exact (Hkeep _ H)].
Defined.

(** C3 does not hold as worded: a reply to the refresh request with status 502
    and a body that is not JSON makes [response.json()] raise before the
    status is looked at, so the failure is not the refresh error. *)
Lemma refresh_non_json_reply :
  let w := fixture_world 1000 [fixture_row "barclays" 1030] [html_reply 502] in
  let run := _ensure_tokens_ready (manager (Some "barclays") w) w in
  ~ (200 <= 502 < 300) /\
  fst run = Raise JSONDecodeError /\
  forall status data, fst run <> Raise (TokenRefreshFailed status data).
Proof.
  intros w run. split; [lia|]. split; [reflexivity|].
  intros status data H. vm_compute in H. discriminate.
Qed.

(** Case analysis on the innermost [match] of a run given as hypothesis. *)
Ltac crunch H :=
  repeat (simpl in H;
          match type of H with
          | context [match ?x with _ => _ end] =>
              lazymatch x with
              | context [match _ with _ => _ end] => fail
              | _ => destruct x eqn:?; try discriminate
              end
          end).

Lemma refresh_tokens_ok self rt w td w1 :
  _refresh_tokens self rt w = (Ok td, w1) ->
  exists d resp rest m old expires_in,
    network w = Reply d resp :: rest /\
    w1 = consume d rest (emit (EvRequest (POST_form token_url form_headers
                                            (refresh_payload self rt))) w) /\
    parsed resp = Some (JObj m) /\
    lookup_token (db self) w = Some old /\
    option_map as_int (dict_get "expires_in" m) = Some (Some expires_in) /\
    dict_get "access_token" m = Some (JStr (access_token td)) /\
    dict_get "refresh_token" m = Some (JStr (refresh_token td)) /\
    dict_get "token_type" m = Some (JStr (token_type td)) /\
    scope td = scope old /\
    expires_at td = clock w + Z.of_nat d + expires_in.
Proof.
  intros H.
  unfold _refresh_tokens, bind, http_send, response_json, subscript,
    py_add_int, make_TokenData, as_str, time_time, ret, raise,
    Database.get_token in H.
  crunch H. inversion H; subst; clear H.
  exists latency, r, l, m, (tk_data t0), z. simpl.
  unfold lookup_token. rewrite Heqo, Heqo0, Heqo2, Heqo3, Heqo4, Heqo5.
  simpl. rewrite Heqo1. repeat split.
Qed.

(** C2. After a refresh that succeeded, the record [get_token] finds has
    the scope of the record stored before; its access token, refresh token
    and token type are the ones of the reply, and its expiry is the time of
    the reply plus the reply's [expires_in].  The reply's "scope" entry is
    never read: the statement holds whether it is there or not. *)
Theorem refresh_keeps_scope (self : TrueLayer.t) (w w' : World) (old : TokenData) :
  lookup_token (db self) w = Some old ->
  store_ok (tokens w) ->
  expires_at old <= clock w + TOKEN_SKEW_SECONDS ->
  _ensure_tokens_ready self w = (Ok tt, w') ->
  exists d resp rest m new expires_in,
    network w = Reply d resp :: rest /\
    parsed resp = Some (JObj m) /\
    lookup_token (db self) w' = Some new /\
    scope new = scope old /\
    dict_get "access_token" m = Some (JStr (access_token new)) /\
    dict_get "refresh_token" m = Some (JStr (refresh_token new)) /\
    dict_get "token_type" m = Some (JStr (token_type new)) /\
    option_map as_int (dict_get "expires_in" m) = Some (Some expires_in) /\
    expires_at new = clock w + Z.of_nat d + expires_in.
Proof.
  intros Hl [_ Hprov] Hdue Hrun.
  rewrite (ensure_due self w old Hl Hdue) in Hrun.
  destruct (lookup_token_institution _ _ _ Hl) as [inst Hinst].
  unfold bind in Hrun.
  destruct (_refresh_tokens self (refresh_token old) w) as [[td|e] w1] eqn:E;
    [|discriminate].
  destruct (refresh_tokens_ok _ _ _ _ _ E)
    as (d & resp & rest & m & old' & ein & Hnet & Hw1 & Hp & Hl' & Hein & Ha & Hr & Hty & Hsc & Hex).
  rewrite Hl in Hl'. inversion Hl'; subst old'; clear Hl'.
  destruct self as [cfg [i]]. simpl in Hinst. subst i. cbn [db] in *.
  destruct (save_token_ok _ _ _ _ _ Hrun) as (inst' & Hi & _ & Hw').
  simpl in Hi. inversion Hi; subst inst'. clear Hi Hrun. symmetry in Hw'.
  exists d, resp, rest, m, td, ein.
  subst w'. split; [assumption|]. split; [assumption|].
  split; [|repeat split; assumption].
  unfold lookup_token. simpl.
  rewrite find_upsert; [simpl; rewrite String.eqb_refl; reflexivity | reflexivity |].
  subst w1. simpl. exact Hprov.
Qed.

Lemma refresh_keeps_scope_witness :
  let reply := JObj [("access_token", JStr "access-1");
                     ("refresh_token", JStr "refresh-1");
                     ("token_type", JStr "Bearer");
                     ("expires_in", JInt 3600)] in
  let w := fixture_world 1000 [fixture_row "barclays" 1030] [json_reply 200 reply] in
  dict_get "scope" [("access_token", JStr "access-1");
                    ("refresh_token", JStr "refresh-1");
                    ("token_type", JStr "Bearer");
                    ("expires_in", JInt 3600)] = None /\
  exists w' new,
    _ensure_tokens_ready (manager (Some "barclays") w) w = (Ok tt, w') /\
    lookup_token (Database.mk (Some "barclays")) w' = Some new /\
    scope new = "info accounts cards" /\
    access_token new = "access-1" /\
    expires_at new = 4601.
Proof.
  intros reply w. split; [reflexivity|].
  assert (Hok : store_ok (tokens w)).
  { split; [repeat constructor; simpl; tauto | repeat constructor]. }
  assert (Hdue : expires_at (fixture_token 1030) <= clock w + TOKEN_SKEW_SECONDS).
  { vm_compute. discriminate. }
  destruct (refresh_keeps_scope (manager (Some "barclays") w) w
              (snd (_ensure_tokens_ready (manager (Some "barclays") w) w))
              (fixture_token 1030) eq_refl Hok Hdue eq_refl)
    as (d & resp & rest & m & new & ein & Hnet & Hp & Hl & Hsc & Ha & _ & _ & Hein & Hex).
  exists (snd (_ensure_tokens_ready (manager (Some "barclays") w) w)), new.
  inversion Hnet; subst d resp rest. simpl in Hp. inversion Hp; subst m.
  simpl in Ha, Hein. inversion Ha as [Ha']. inversion Hein; subst ein.
  repeat split; try assumption; try reflexivity.
Defined.


Lemma lookup_token_advance self d w :
  lookup_token self (advance d w) = lookup_token self w.
Proof. reflexivity. Qed.

Lemma bearer_run self w tok :
  lookup_token (db self) w = Some tok ->
  bearer self w = (Ok ("Bearer " ++ access_token tok)%string, w).
Proof.
  intros Hl. unfold bearer, bind. rewrite get_token_lookup, Hl. reflexivity.
Qed.

Lemma list_cards_world self w tok :
  lookup_token (db self) w = Some tok ->
  snd (_list_cards self w) =
  snd (http_send (GET cards_url
                      [("Authorization", ("Bearer " ++ access_token tok)%string);
                       ("Content-Type", "application/json")] []) w).
Proof.
  intros Hl. unfold _list_cards. unfold bind at 1. rewrite (bearer_run _ _ _ Hl).
  apply bind_then_readonly. intros r. apply readonly_checked_json.
Qed.

(** C1, as the code has it. Expiry is looked at when the manager is built: a stored
    token with [now + 60 < expires_at] is kept and [__init__] changes
    nothing.  The calls that use the token do not look at expiry again: [d]
    seconds later the Authorization header carries that same token, which
    then has more than [60 - d] seconds left, and [_list_cards] sends its GET
    with it, no request to the token endpoint, and writes no token row. *)
Theorem token_checked_at_construction
        (institution : option string) (w : World) (tok : TokenData) (d : nat) :
  lookup_token (Database.mk institution) w = Some tok ->
  clock w + TOKEN_SKEW_SECONDS < expires_at tok ->
  client_configured w = true ->
  let self := manager institution w in
  let w' := advance d w in
  init institution w = (Ok self, w) /\
  bearer self w' = (Ok ("Bearer " ++ access_token tok)%string, w') /\
  TOKEN_SKEW_SECONDS - Z.of_nat d < remaining_lifetime tok w' /\
  trace (snd (_list_cards self w')) =
    trace w ++ [EvRequest (GET cards_url
                             [("Authorization", ("Bearer " ++ access_token tok)%string);
                              ("Content-Type", "application/json")] [])] /\
  tokens (snd (_list_cards self w')) = tokens w.
Proof.
  intros Hl Hfresh Hcfg self w'.
  assert (Hl' : lookup_token (db self) w' = Some tok) by exact Hl.
  split; [|split; [|split; [|split]]].
  - rewrite init_configured by exact Hcfg. unfold bind.
    fold self. rewrite (ensure_fresh self w tok Hl Hfresh). reflexivity.
  - apply bearer_run, Hl'.
  - unfold remaining_lifetime, w', advance, TOKEN_SKEW_SECONDS in *. cbn [clock]. lia.
  - rewrite (list_cards_world self w' tok Hl'), http_send_trace. reflexivity.
  - rewrite (list_cards_world self w' tok Hl'), http_send_tokens. reflexivity.
Qed.

Lemma token_checked_at_construction_witness :
  let w := fixture_world 1000 [fixture_row "barclays" 1061]
             [json_reply 200 (JObj [("results", JArr [])])] in
  init (Some "barclays") w = (Ok (manager (Some "barclays") w), w) /\
  bearer (manager (Some "barclays") w) (advance 0 w) = (Ok "Bearer access-0", advance 0 w) /\
  60 < remaining_lifetime (fixture_token 1061) (advance 0 w).
Proof.
  intros w.
  assert (Hfresh : clock w + TOKEN_SKEW_SECONDS < expires_at (fixture_token 1061))
    by reflexivity.
  destruct (token_checked_at_construction (Some "barclays") w (fixture_token 1061) 0
              eq_refl Hfresh eq_refl) as (Hinit & Hb & Hr & _).
  split; [exact Hinit|]. split; [exact Hb | exact Hr].
Defined.

(** C1 does not hold as worded: a token found with 61 seconds left when the
    manager is built is handed out 50 seconds later, with 11 seconds left,
    and [_list_cards] sends it without any refresh. *)
Lemma stale_token_handed_out :
  let w0 := fixture_world 1000 [fixture_row "barclays" 1061]
              [json_reply 200 (JObj [("results", JArr [])])] in
  let self := manager (Some "barclays") w0 in
  let w1 := advance 50 w0 in
  init (Some "barclays") w0 = (Ok self, w0) /\
  bearer self w1 = (Ok "Bearer access-0", w1) /\
  lookup_token (db self) w1 = Some (fixture_token 1061) /\
  remaining_lifetime (fixture_token 1061) w1 = 11 /\
  trace (snd (_list_cards self w1)) =
    [EvRequest (GET cards_url [("Authorization", "Bearer access-0");
                               ("Content-Type", "application/json")] [])] /\
  ~ fresh_at_use (Some "barclays") w0 50.
Proof.
  intros w0 self w1.
  repeat (split; [reflexivity|]).
  intros H.
  destruct (H self w0 "Bearer access-0" w1 eq_refl eq_refl) as (tok & Hl & _ & Hlife).
  vm_compute in Hl. inversion Hl; subst tok.
  vm_compute in Hlife. apply Hlife. reflexivity.
Qed.

(** *** Routing of [list_transactions] *)

Lemma prefix_append (s x : string) : String.prefix s (s ++ x) = true.
Proof.
  induction s as [|a s IH]; simpl.
  - destruct x; reflexivity.
  - destruct (Ascii.ascii_dec a a) as [_|Hne]; [exact IH | contradiction].
Qed.

Lemma endpoint_card id h ps :
  endpoint_of (GET (card_transactions_url id) h ps) = CardTransactions.
Proof.
  unfold endpoint_of, card_transactions_url. rewrite prefix_append. reflexivity.
Qed.

Lemma endpoint_account id h ps :
  endpoint_of (GET (account_transactions_url id) h ps) = AccountTransactions.
Proof.
  unfold endpoint_of, account_transactions_url. rewrite prefix_append.
  reflexivity.
Qed.

Lemma is_credit_card_row self name w b w' :
  Database.is_credit_card self name w = (Ok b, w') ->
  exists r, find (Database.account_row_matches self name) (accounts w) = Some r /\
            b = String.eqb (type_text (ac_type r)) "credit" /\ w' = w.
Proof.
  unfold Database.is_credit_card, Database.fetch_account, bind.
  destruct (find _ (accounts w)) as [r|]; [|discriminate].
  intros H. inversion H. eauto.
Qed.

Lemma transactions_world (card : bool) self name df dt w r tok :
  find (Database.account_row_matches (db self) name) (accounts w) = Some r ->
  lookup_token (db self) w = Some tok ->
  snd ((if card then _list_card_transactions self name df dt
        else _list_account_transactions self name df dt) w) =
  snd (http_send
         (GET ((if card then card_transactions_url else account_transactions_url)
                 (ac_truelayer_account_id r))
              [("Authorization", ("Bearer " ++ access_token tok)%string)]
              [("from", df); ("to", dt)]) w).
Proof.
  intros Hr Hl.
  destruct card; unfold _list_card_transactions, _list_account_transactions;
    unfold bind at 1; unfold Database.get_account_id, Database.fetch_account;
    unfold bind at 1; rewrite Hr; unfold ret at 1;
    unfold bind at 1; rewrite (bearer_run _ _ _ Hl);
    apply bind_then_readonly; intros resp; apply readonly_checked_json.
Qed.

Lemma transactions_no_token (card : bool) self name df dt w r :
  find (Database.account_row_matches (db self) name) (accounts w) = Some r ->
  lookup_token (db self) w = None ->
  (if card then _list_card_transactions self name df dt
   else _list_account_transactions self name df dt) w = (Raise AttributeError, w).
Proof.
  intros Hr Hl.
  destruct card; unfold _list_card_transactions, _list_account_transactions;
    unfold bind at 1; unfold Database.get_account_id, Database.fetch_account;
    unfold bind at 1; rewrite Hr; unfold ret at 1;
    unfold bind at 1; unfold bearer, bind; rewrite get_token_lookup, Hl; reflexivity.
Qed.

(** C5. When [is_credit_card] answers [b] for the account, [list_transactions]
    is the card-transactions call if [b] is true and the account-transactions
    call if it is false.  With a token stored it sends one request, to the
    cards endpoint when [b] is true and to the accounts endpoint when it is
    false; and whatever it sends goes to the cards endpoint exactly when [b]
    is true, to the accounts endpoint exactly when [b] is false. *)
Theorem list_transactions_routing (self : TrueLayer.t) (account_name : string)
        (date_from date_to : option string) (w : World) (b : bool) :
  Database.is_credit_card (db self) account_name w = (Ok b, w) ->
  let run := list_transactions self account_name date_from date_to w in
  run = (if b then _list_card_transactions self account_name date_from date_to
         else _list_account_transactions self account_name date_from date_to) w /\
  (forall tok, lookup_token (db self) w = Some tok ->
     exists rq, trace (snd run) = trace w ++ [EvRequest rq] /\
                endpoint_of rq = if b then CardTransactions else AccountTransactions) /\
  (forall evs rq,
     trace (snd run) = trace w ++ evs -> In (EvRequest rq) evs ->
     (endpoint_of rq = CardTransactions <-> b = true) /\
     (endpoint_of rq = AccountTransactions <-> b = false)).
Proof.
  intros Hb run.
  assert (Hrun : run = (if b then _list_card_transactions self account_name date_from date_to
                        else _list_account_transactions self account_name date_from date_to) w).
  { subst run. unfold list_transactions, bind. rewrite Hb. destruct b; reflexivity. }
  destruct (is_credit_card_row _ _ _ _ _ Hb) as (r & Hr & _ & _).
  split; [exact Hrun|]. rewrite Hrun. clear Hrun run. split.
  - intros tok Hl.
    rewrite (transactions_world b self account_name date_from date_to w r tok Hr Hl).
    rewrite http_send_trace. eexists. split; [reflexivity|].
    destruct b; [apply endpoint_card | apply endpoint_account].
  - intros evs rq Htr Hin.
    destruct (lookup_token (db self) w) as [tok|] eqn:Hl.
    + rewrite (transactions_world b self account_name date_from date_to w r tok Hr Hl),
        http_send_trace in Htr.
      apply app_inv_head in Htr. subst evs.
      destruct Hin as [Heq|[]]. inversion Heq; subst rq.
      destruct b; [rewrite endpoint_card | rewrite endpoint_account];
        split; split; congruence.
    + rewrite (transactions_no_token b self account_name date_from date_to w r Hr Hl) in Htr.
      simpl in Htr. rewrite <- (app_nil_r (trace w)) in Htr at 1.
      apply app_inv_head in Htr. subst evs. destruct Hin.
Qed.

Lemma list_transactions_routing_witness :
  let w := fixture_world 1000 [fixture_row "barclays" 5000]
             [json_reply 200 (JObj [("results", JArr [])])] in
  let self := manager (Some "barclays") w in
  Database.is_credit_card (db self) "creditcard1" w = (Ok true, w) /\
  Database.is_credit_card (db self) "checking1" w = (Ok false, w) /\
  list_transactions self "creditcard1" None None w =
    _list_card_transactions self "creditcard1" None None w /\
  list_transactions self "checking1" None None w =
    _list_account_transactions self "checking1" None None w.
Proof.
  intros w self.
  split; [reflexivity|]. split; [reflexivity|].
  split.
  - exact (proj1 (list_transactions_routing self "creditcard1" None None w true eq_refl)).
  - exact (proj1 (list_transactions_routing self "checking1" None None w false eq_refl)).
Defined.

(** ** The import cycle *)

Lemma failures_app evs1 evs2 :
  failures (evs1 ++ evs2) = (failures evs1 + failures evs2)%nat.
Proof.
  induction evs1 as [|e evs1 IH]; simpl; [reflexivity|].
  destruct e; simpl; rewrite IH; reflexivity.
Qed.

Lemma quiet_readonly {A} (c : Py A) : readonly c -> quiet c.
Proof.
  intros H w. exists []. rewrite H, app_nil_r. split; reflexivity.
Qed.

Lemma quiet_bind {A B} (c : Py A) (k : A -> Py B) :
  quiet c -> (forall a, quiet (k a)) -> quiet (bind c k).
Proof.
  intros Hc Hk w. unfold bind. destruct (Hc w) as (evs1 & H1 & F1).
  destruct (c w) as [[a|e] w1]; simpl in *.
  - destruct (Hk a w1) as (evs2 & H2 & F2).
    exists (evs1 ++ evs2). rewrite H2, H1, app_assoc, failures_app, F1, F2.
    split; reflexivity.
  - exists evs1. auto.
Qed.

Lemma quiet_try_except {A} (c : Py A) (h : Exn -> Py A) :
  quiet c -> (forall e, quiet (h e)) -> quiet (try_except c h).
Proof.
  intros Hc Hh w. unfold try_except. destruct (Hc w) as (evs1 & H1 & F1).
  destruct (c w) as [[a|e] w1]; simpl in *.
  - exists evs1. auto.
  - destruct (Hh e w1) as (evs2 & H2 & F2).
    exists (evs1 ++ evs2). rewrite H2, H1, app_assoc, failures_app, F1, F2.
    split; reflexivity.
Qed.

Lemma quiet_http_send rq : quiet (http_send rq).
Proof. intros w. exists [EvRequest rq]. rewrite http_send_trace. split; reflexivity. Qed.

Lemma quiet_log_info m : quiet (log (EvLogInfo m)).
Proof. intros w. exists [EvLogInfo m]. split; reflexivity. Qed.

Lemma quiet_save_token self td : quiet (Database.save_token self td).
Proof.
  intros w.
  destruct (save_token_cases self td w) as [(i & _ & _ & Hr)|[e Hr]]; rewrite Hr.
  - eexists. split; reflexivity.
  - exists []. rewrite app_nil_r. split; reflexivity.
Qed.

Lemma readonly_py_len j : readonly (Api.py_len j).
Proof. destruct j; intros w; reflexivity. Qed.

Ltac quiet_step :=
  first
    [ solve [apply quiet_readonly;
             repeat first [ readonly_step
                          | apply readonly_py_len
                          | apply readonly_get_actual_account_id
                          | apply readonly_is_credit_card
                          | apply readonly_get_account_id
                          | apply readonly_bearer
                          | apply readonly_checked_json
                          | solve [unfold readonly; intros; reflexivity] ]]
    | apply quiet_http_send | apply quiet_log_info | apply quiet_save_token
    | apply quiet_bind | apply quiet_try_except
    | match goal with
      | |- quiet (if ?b then _ else _) => destruct b
      | |- quiet (match ?x with _ => _ end) => destruct x
      | |- forall _, _ => intro
      end ].

Lemma quiet_ensure_tokens_ready self : quiet (_ensure_tokens_ready self).
Proof.
  unfold _ensure_tokens_ready, _exchange_code_for_tokens, _refresh_tokens.
  repeat quiet_step.
Qed.

Lemma quiet_init inst : quiet (init inst).
Proof.
  unfold init, getenv_or, getenv_or_None, Database.init.
  repeat first [apply quiet_ensure_tokens_ready | quiet_step].
Qed.

Lemma quiet_list_transactions self name df dt :
  quiet (list_transactions self name df dt).
Proof.
  unfold list_transactions, _list_card_transactions, _list_account_transactions.
  repeat quiet_step.
Qed.

Lemma quiet_import_transactions inst account :
  quiet (Api.import_transactions inst account).
Proof.
  unfold Api.import_transactions.
  repeat first [apply quiet_init | apply quiet_list_transactions | quiet_step].
Qed.

Lemma import_one_run a w : Api.import_one a w = (Ok tt, turn w a).
Proof.
  destruct a as [name inst]. unfold Api.import_one, turn, import_account, try_except, bind.
  simpl. destruct (Api.import_transactions inst name w) as [[j|e] w']; reflexivity.
Qed.

Lemma for_each_run l : forall w, Api.for_each l w = (Ok tt, cycle l w).
Proof.
  induction l as [|a l IH]; intros w; simpl; [reflexivity|].
  unfold bind. rewrite import_one_run. apply IH.
Qed.

Lemma turn_failures a w :
  failures (trace (turn w a)) =
  (failures (trace w)
   + match fst (import_account a w) with Raise _ => 1 | Ok _ => 0 end)%nat.
Proof.
  unfold turn, import_account.
  destruct (quiet_import_transactions (snd a) (fst a) w) as (evs & Ht & Hf).
  destruct (Api.import_transactions (snd a) (fst a) w) as [[j|e] w']; simpl in *.
  - rewrite Ht, failures_app, Hf. reflexivity.
  - rewrite Ht, !failures_app, Hf. simpl. lia.
Qed.

Lemma cycle_failures l : forall w,
  failures (trace (cycle l w)) = (failures (trace w) + raised l w)%nat.
Proof.
  induction l as [|a l IH]; intros w; simpl.
  - rewrite Nat.add_0_r. reflexivity.
  - unfold cycle in *. rewrite IH, turn_failures, Nat.add_assoc. reflexivity.
Qed.

Lemma turn_ok a w j w' : import_account a w = (Ok j, w') -> turn w a = w'.
Proof. intros H. unfold turn. rewrite H. reflexivity. Qed.

Lemma turn_raise a w e w' :
  import_account a w = (Raise e, w') ->
  turn w a = emit (EvLogException (FailedImporting (fst a) (snd a)) e) w'.
Proof. intros H. unfold turn. rewrite H. reflexivity. Qed.

(** C6. [import_all_accounts] never raises and gives every active account
    its turn, in the world the turns before it left: an import that raises
    adds one [logging.exception] record and the loop goes on.  The number of
    such records the cycle adds is the number of accounts whose import
    raised.  Over three accounts of which only the second one's import
    raises, the cycle ends in the world the third import left, with exactly
    one such record more, the one of the second account. *)
Theorem import_cycle_isolates_failures (w : World) :
  let l := active_accounts w in
  Api.import_all_accounts w = (Ok tt, cycle l w) /\
  (forall before a after,
      l = before ++ a :: after ->
      cycle l w = cycle after (turn (cycle before w) a)) /\
  failures (trace (cycle l w)) = (failures (trace w) + raised l w)%nat /\
  (forall a1 a2 a3 j1 w1 e w2 j3 w3,
      l = [a1; a2; a3] ->
      import_account a1 w = (Ok j1, w1) ->
      import_account a2 w1 = (Raise e, w2) ->
      import_account a3 (emit (EvLogException (FailedImporting (fst a2) (snd a2)) e) w2)
        = (Ok j3, w3) ->
      cycle l w = w3 /\
      raised l w = 1%nat /\
      failures (trace w3) = (failures (trace w) + 1)%nat).
Proof.
  intros l.
  assert (Hrun : Api.import_all_accounts w = (Ok tt, cycle l w)).
  { unfold Api.import_all_accounts, Database.init, Database.get_actual_accounts, bind, ret.
    apply for_each_run. }
  split; [exact Hrun|]. split; [|split].
  - intros before a after Hl. rewrite Hl. unfold cycle.
    rewrite fold_left_app. reflexivity.
  - apply cycle_failures.
  - intros a1 a2 a3 j1 w1 e w2 j3 w3 Hl H1 H2 H3.
    pose proof (turn_ok _ _ _ _ H1) as T1.
    pose proof (turn_raise _ _ _ _ H2) as T2.
    pose proof (turn_ok _ _ _ _ H3) as T3.
    assert (Hc : cycle l w = w3).
    { rewrite Hl. unfold cycle. cbn [fold_left]. rewrite T1, T2, T3. reflexivity. }
    assert (Hr : raised l w = 1%nat).
    { rewrite Hl. cbn [raised]. rewrite T1, T2, H1, H2, H3. reflexivity. }
    split; [exact Hc|]. split; [exact Hr|].
    rewrite <- Hc, cycle_failures, Hr. reflexivity.
Qed.

Lemma import_cycle_isolates_failures_witness :
  Api.import_all_accounts cycle_world = (Ok tt, cycle (active_accounts cycle_world) cycle_world) /\
  failures (trace (cycle (active_accounts cycle_world) cycle_world)) = 1%nat /\
  In (EvRequest (GET "https://api.truelayer.com/data/v1/accounts/None/transactions"
                     [("Authorization", "Bearer access-0")]
                     [("from", Some "2025-11-01"); ("to", Some "2025-12-01")]))
     (trace (cycle (active_accounts cycle_world) cycle_world)).
Proof.
  destruct (import_cycle_isolates_failures cycle_world) as (Hrun & _ & _ & Hthree).
  split; [exact Hrun|].
  pose (a1 := ("creditcard1", Some "barclays")).
  pose (a2 := ("checking1", Some "barclays")).
  pose (a3 := ("savings1", Some "barclays")).
  lazymatch eval vm_compute in (import_account a1 cycle_world) with
  | (Ok ?j1, ?w1) =>
      assert (H1 : import_account a1 cycle_world = (Ok j1, w1))
        by (vm_compute; reflexivity);
      lazymatch eval vm_compute in (import_account a2 w1) with
      | (Raise ?e, ?w2) =>
          assert (H2 : import_account a2 w1 = (Raise e, w2))
            by (vm_compute; reflexivity);
          lazymatch eval vm_compute in
                (import_account a3
                   (emit (EvLogException (FailedImporting (fst a2) (snd a2)) e) w2)) with
          | (Ok ?j3, ?w3) =>
              assert (H3 : import_account a3
                             (emit (EvLogException (FailedImporting (fst a2) (snd a2)) e) w2)
                           = (Ok j3, w3))
                by (vm_compute; reflexivity);
              destruct (Hthree a1 a2 a3 j1 w1 e w2 j3 w3) as (Hc & _ & Hf);
              [ vm_compute; reflexivity | exact H1 | exact H2 | exact H3 | ]
          end
      end
  end.
  rewrite Hc. split; [exact Hf | vm_compute; tauto].
Defined.

(** * Further properties *)

Lemma bind_ok {A B} (c : Py A) (k : A -> Py B) w a w1 :
  c w = (Ok a, w1) -> bind c k w = k a w1.
Proof. intros H. unfold bind. rewrite H. reflexivity. Qed.

Lemma bind_raise {A B} (c : Py A) (k : A -> Py B) w e w1 :
  c w = (Raise e, w1) -> bind c k w = (Raise e, w1).
Proof. intros H. unfold bind. rewrite H. reflexivity. Qed.


(** ** Credential store *)

Lemma filter_upsert_other r rows :
  filter (fun x => negb (Database.same_key x r)) (Database.upsert r rows) =
  filter (fun x => negb (Database.same_key x r)) rows.
Proof.
  assert (Hrr : Database.same_key r r = true) by (apply same_key_true; reflexivity).
  induction rows as [|x rows IH]; simpl.
  - rewrite Hrr. reflexivity.
  - destruct (Database.same_key x r) eqn:E; simpl.
    + rewrite Hrr. reflexivity.
    + rewrite E. simpl. rewrite IH. reflexivity.
Qed.

Lemma length_upsert r rows :
  length (Database.upsert r rows) =
  if existsb (fun x => Database.same_key x r) rows then length rows
  else S (length rows).
Proof.
  induction rows as [|x rows IH]; simpl; [reflexivity|].
  destruct (Database.same_key x r); simpl; [reflexivity|].
  rewrite IH. destruct (existsb _ rows); reflexivity.
Qed.

Lemma in_upsert r rows : In r (Database.upsert r rows).
Proof.
  induction rows as [|x rows IH]; simpl; [auto|].
  destruct (Database.same_key x r); simpl; auto.
Qed.

Lemma same_key_has_key x inst td now :
  Database.same_key x (mkTokenRow "truelayer" inst td now) = has_key "truelayer" inst x.
Proof. reflexivity. Qed.

(** X1. [save_token] writes the row of its own key and nothing else.
    When the expiry and the time fit an SQLite INTEGER it succeeds: the rows
    of every other key are the same, in the same order; the new row is in
    the table; the table has one row more exactly when no row had that key;
    and one write is recorded.  Otherwise it raises OverflowError and the
    world is as it was. *)
Theorem save_token_touches_one_row (inst : string) (td : TokenData) (w : World) :
  let run := Database.save_token (Database.mk (Some inst)) td w in
  let row := mkTokenRow "truelayer" inst td (clock w) in
  if storable td (clock w) then
    fst run = Ok tt /\
    filter (fun r => negb (has_key "truelayer" inst r)) (tokens (snd run)) =
    filter (fun r => negb (has_key "truelayer" inst r)) (tokens w) /\
    In row (tokens (snd run)) /\
    length (tokens (snd run)) =
    (if existsb (has_key "truelayer" inst) (tokens w) then length (tokens w)
     else S (length (tokens w))) /\
    trace (snd run) = trace w ++ [EvSaveToken row] /\
    accounts (snd run) = accounts w
  else run = (Raise OverflowError, w).
Proof.
  intros run row. subst run.
  destruct (storable td (clock w)) eqn:Hs.
  - rewrite (save_token_run inst td w Hs). simpl. fold row.
    split; [reflexivity|]. split; [|split; [|split; [|split]]].
    + exact (filter_upsert_other row (tokens w)).
    + apply in_upsert.
    + exact (length_upsert row (tokens w)).
    + reflexivity.
    + reflexivity.
  - apply save_token_overflow, Hs.
Qed.

Lemma find_upsert_shadowed r row rows inst :
  find (Database.token_row_matches (Database.mk (Some inst))) rows = Some r ->
  tk_provider r <> "truelayer" ->
  tk_provider row = "truelayer" ->
  tk_institution row = inst ->
  find (Database.token_row_matches (Database.mk (Some inst))) (Database.upsert row rows)
  = Some r.
Proof.
  intros Hf Hp Hrp Hri. induction rows as [|x rows IH]; simpl in *; [discriminate|].
  destruct (Database.token_row_matches (Database.mk (Some inst)) x) eqn:Hm.
  - inversion Hf; subst x. clear IH.
    assert (Hk : Database.same_key r row = false).
    { unfold Database.same_key. rewrite Hrp.
      destruct (String.eqb_spec (tk_provider r) "truelayer"); [contradiction|reflexivity]. }
    rewrite Hk. simpl. rewrite Hm. reflexivity.
  - assert (Hk : Database.same_key x row = false).
    { unfold Database.same_key. rewrite Hri.
      unfold Database.token_row_matches, Database.sql_eq in Hm. simpl in Hm.
      rewrite Hm. apply andb_false_r. }
    rewrite Hk. simpl. rewrite Hm. apply IH. exact Hf.
Qed.

(** X2. [get_token] selects by institution alone.  When the first row of
    the institution belongs to another provider, [get_token] keeps
    returning that row's record after [save_token]: the record just saved is
    not the one read back. *)
Theorem get_token_ignores_provider (inst : string) (td : TokenData) (w : World)
        (r : TokenRow) :
  find (Database.token_row_matches (Database.mk (Some inst))) (tokens w) = Some r ->
  tk_provider r <> "truelayer" ->
  let w' := snd (Database.save_token (Database.mk (Some inst)) td w) in
  Database.get_token (Database.mk (Some inst)) w' = (Ok (Some (tk_data r)), w').
Proof.
  intros Hf Hp w'. rewrite get_token_lookup. unfold lookup_token.
  subst w'.
  destruct (save_token_cases (Database.mk (Some inst)) td w) as [(i & Hi & _ & Hr)|[e Hr]];
    rewrite Hr; simpl.
  - inversion Hi; subst i.
    rewrite (find_upsert_shadowed r (mkTokenRow "truelayer" inst td (clock w))
               (tokens w) inst Hf Hp eq_refl eq_refl).
    reflexivity.
  - rewrite Hf. reflexivity.
Qed.

Lemma get_token_ignores_provider_witness :
  let other := mkTokenRow "plaid" "barclays" (fixture_token 100) 0 in
  let w := fixture_world 1000 [other] [] in
  let w' := snd (Database.save_token (Database.mk (Some "barclays")) (fixture_token 9000) w) in
  Database.get_token (Database.mk (Some "barclays")) w' = (Ok (Some (fixture_token 100)), w') /\
  In (mkTokenRow "truelayer" "barclays" (fixture_token 9000) 1000) (tokens w').
Proof.
  intros other w w'. split.
  - apply (get_token_ignores_provider "barclays" (fixture_token 9000) w other).
    + reflexivity.
    + simpl. discriminate.
  - simpl. auto.
Defined.

Lemma find_never {A} (l : list A) : find (fun _ => false) l = None.
Proof. induction l; simpl; auto. Qed.

Lemma account_row_matches_null name r :
  Database.account_row_matches (Database.mk None) name r = false.
Proof.
  unfold Database.account_row_matches, Database.sql_eq. simpl.
  destruct (ac_institution r); apply andb_false_r.
Qed.

Lemma find_account_null name rows :
  find (Database.account_row_matches (Database.mk None) name) rows = None.
Proof.
  induction rows as [|r rows IH]; simpl; [reflexivity|].
  rewrite account_row_matches_null. exact IH.
Qed.

(** X3. A store object whose institution is None matches no row, not even
    the account rows whose institution is NULL: [get_token] finds nothing,
    [get_account_id] and [is_credit_card] raise "No account found",
    [get_actual_account_id] returns None, and [save_token] always raises,
    IntegrityError from the NOT NULL column when its integers could be
    bound and OverflowError when they could not; nothing is written. *)
Theorem null_institution_matches_nothing (account_name : string) (td : TokenData)
        (w : World) :
  let self := Database.mk None in
  Database.get_token self w = (Ok None, w) /\
  Database.get_account_id self account_name w = (Raise (NotFound account_name None), w) /\
  Database.is_credit_card self account_name w = (Raise (NotFound account_name None), w) /\
  Database.get_actual_account_id self account_name w = (Ok None, w) /\
  Database.save_token self td w =
    (Raise (if storable td (clock w) then IntegrityError else OverflowError), w).
Proof.
  intros self. subst self.
  assert (Ht : lookup_token (Database.mk None) w = None).
  { unfold lookup_token, Database.token_row_matches, Database.sql_eq. simpl.
    rewrite find_never. reflexivity. }
  rewrite get_token_lookup, Ht.
  unfold Database.get_account_id, Database.is_credit_card,
    Database.get_actual_account_id, Database.fetch_account, bind.
  rewrite find_account_null.
  repeat (split; [reflexivity|]).
  destruct (storable td (clock w)) eqn:Hs.
  - apply save_token_null, Hs.
  - apply save_token_overflow, Hs.
Qed.

Lemma find_app_some {A} (f : A -> bool) l extra r :
  find f l = Some r -> find f (l ++ extra) = Some r.
Proof.
  induction l as [|x l IH]; simpl; [discriminate|].
  destruct (f x); auto.
Qed.

(** X4. The account lookups answer from the first matching row: once a
    row matches (name, institution), rows added after it, duplicates of that
    pair included, change none of the three answers. *)
Theorem account_lookups_first_match (self : Database.t) (account_name : string)
        (w w2 : World) (extra : list AccountRow) (r : AccountRow) :
  find (Database.account_row_matches self account_name) (accounts w) = Some r ->
  accounts w2 = accounts w ++ extra ->
  Database.get_account_id self account_name w2 = (Ok (ac_truelayer_account_id r), w2) /\
  Database.is_credit_card self account_name w2
    = (Ok (String.eqb (type_text (ac_type r)) "credit"), w2) /\
  Database.get_actual_account_id self account_name w2 = (Ok (ac_actual_account_id r), w2).
Proof.
  intros Hf Hacc.
  unfold Database.get_account_id, Database.is_credit_card,
    Database.get_actual_account_id, Database.fetch_account, bind.
  rewrite Hacc, (find_app_some _ _ extra _ Hf). repeat split.
Qed.

Lemma account_lookups_first_match_witness :
  let dup := mkAccountRow 9 "checking1" credit (Some "barclays") (Some "tl-other") None in
  let w2 := mkWorld 0 fixture_environ fixture_calendar [] (fixture_accounts ++ [dup]) [] [] in
  Database.get_account_id (Database.mk (Some "barclays")) "checking1" w2
    = (Ok (Some "tl-acc-2"), w2) /\
  Database.is_credit_card (Database.mk (Some "barclays")) "checking1" w2 = (Ok false, w2).
Proof.
  intros dup w2.
  destruct (account_lookups_first_match (Database.mk (Some "barclays")) "checking1"
              (fixture_world 0 [] []) w2 [dup]
              (mkAccountRow 2 "checking1" debit (Some "barclays") (Some "tl-acc-2")
                            (Some "actual-2"))
              eq_refl eq_refl) as (H1 & H2 & _).
  split; [exact H1 | exact H2].
Defined.

(** X5. An account [get_actual_accounts] lists can be resolved by a store
    object of its institution exactly when its institution is not NULL:
    then [is_credit_card] and [get_account_id] do not raise; with a NULL
    institution both raise "No account found". *)
Theorem listed_accounts_resolve (w : World) (name : string) (inst : option string) :
  In (name, inst) (active_accounts w) ->
  match inst with
  | Some i =>
      (exists b, Database.is_credit_card (Database.mk inst) name w = (Ok b, w)) /\
      (exists id, Database.get_account_id (Database.mk inst) name w = (Ok id, w))
  | None =>
      Database.is_credit_card (Database.mk inst) name w = (Raise (NotFound name None), w) /\
      Database.get_account_id (Database.mk inst) name w = (Raise (NotFound name None), w)
  end.
Proof.
  intros Hin. unfold active_accounts in Hin. apply in_map_iff in Hin.
  destruct Hin as (r & Hr & Hin). apply filter_In in Hin. destruct Hin as [Hin _].
  inversion Hr; subst name inst. clear Hr.
  unfold Database.is_credit_card, Database.get_account_id, Database.fetch_account, bind.
  destruct (ac_institution r) as [i|] eqn:Hi.
  - destruct (find (Database.account_row_matches (Database.mk (Some i)) (ac_name r))
                   (accounts w)) as [r'|] eqn:Hf.
    + split; eexists; reflexivity.
    + exfalso. apply (find_none _ _ Hf) in Hin.
      unfold Database.account_row_matches, Database.sql_eq in Hin. simpl in Hin.
      rewrite Hi, !String.eqb_refl in Hin. discriminate.
  - rewrite find_account_null. split; reflexivity.
Qed.

Lemma listed_accounts_resolve_witness :
  (exists b, Database.is_credit_card (Database.mk (Some "barclays")) "savings1"
               (fixture_world 0 [] []) = (Ok b, fixture_world 0 [] [])) /\
  (exists id, Database.get_account_id (Database.mk (Some "barclays")) "savings1"
                (fixture_world 0 [] []) = (Ok id, fixture_world 0 [] [])).
Proof.
  apply (listed_accounts_resolve (fixture_world 0 [] []) "savings1" (Some "barclays")).
  simpl. auto.
Defined.

(** ** Token lifecycle *)

Lemma falsy_false c : falsy c = false -> exists s, c = Some s /\ s <> "".
Proof.
  destruct c as [s|]; simpl; [|discriminate].
  intros H. exists s. split; [reflexivity|].
  intros ->. discriminate.
Qed.

Lemma ensure_bootstrap self w c :
  lookup_token (db self) w = None ->
  code (config self) = Some c -> c <> "" ->
  _ensure_tokens_ready self w =
  (exchanged <- _exchange_code_for_tokens self c ;;
   Database.save_token (db self) exchanged) w.
Proof.
  intros Hl Hc Hne. unfold _ensure_tokens_ready. unfold bind at 1.
  rewrite get_token_lookup, Hl, Hc. simpl.
  destruct (String.eqb_spec c ""); [contradiction|reflexivity].
Qed.

Lemma exchange_ok self c w td w1 :
  _exchange_code_for_tokens self c w = (Ok td, w1) ->
  exists d resp rest m expires_in,
    network w = Reply d resp :: rest /\
    w1 = consume d rest (emit (EvRequest (exchange_request self c)) w) /\
    status_code resp = 200 /\
    parsed resp = Some (JObj m) /\
    option_map as_int (dict_get "expires_in" m) = Some (Some expires_in) /\
    dict_get "access_token" m = Some (JStr (access_token td)) /\
    dict_get "refresh_token" m = Some (JStr (refresh_token td)) /\
    dict_get "token_type" m = Some (JStr (token_type td)) /\
    dict_get "scope" m = Some (JStr (scope td)) /\
    expires_at td = clock w + Z.of_nat d + expires_in.
Proof.
  intros H.
  unfold _exchange_code_for_tokens, bind, http_send, response_json, subscript,
    py_add_int, make_TokenData, as_str, time_time, ret, raise in H.
  crunch H. inversion H; subst; clear H.
  exists latency, r, l, m, z. simpl.
  rewrite Heqo, Heqo0, Heqo2, Heqo3, Heqo4, Heqo5. simpl. rewrite Heqo1.
  apply negb_false_iff, Z.eqb_eq in Heqb.
  repeat split. exact Heqb.
Qed.

Lemma lookup_after_save self td w w' :
  Forall (fun r => tk_provider r = "truelayer") (tokens w) ->
  Database.save_token self td w = (Ok tt, w') ->
  lookup_token self w' = Some td.
Proof.
  intros Hp Hrun. destruct (save_token_ok _ _ _ _ _ Hrun) as (inst & Hi & _ & ->).
  destruct self as [i]. simpl in Hi. subst i.
  unfold lookup_token. simpl.
  rewrite find_upsert by (try reflexivity; exact Hp). simpl.
  rewrite String.eqb_refl. reflexivity.
Qed.

(** X6. A bootstrap that succeeds sent one request, the exchange of the
    configured code, got status 200, and stored under ("truelayer",
    institution) the record made of the reply: its access token, refresh
    token, token type and scope, with expiry the time of the reply plus
    [expires_in].  [get_token] then returns that record. *)
Theorem bootstrap_persists_reply (self : TrueLayer.t) (w w' : World) :
  lookup_token (db self) w = None ->
  store_ok (tokens w) ->
  _ensure_tokens_ready self w = (Ok tt, w') ->
  exists c inst d resp rest m new expires_in,
    code (config self) = Some c /\
    Database.institution (db self) = Some inst /\
    network w = Reply d resp :: rest /\
    status_code resp = 200 /\
    parsed resp = Some (JObj m) /\
    trace w' = trace w ++ [EvRequest (exchange_request self c);
                           EvSaveToken (mkTokenRow "truelayer" inst new
                                                   (clock w + Z.of_nat d))] /\
    Database.get_token (db self) w' = (Ok (Some new), w') /\
    dict_get "access_token" m = Some (JStr (access_token new)) /\
    dict_get "refresh_token" m = Some (JStr (refresh_token new)) /\
    dict_get "token_type" m = Some (JStr (token_type new)) /\
    dict_get "scope" m = Some (JStr (scope new)) /\
    option_map as_int (dict_get "expires_in" m) = Some (Some expires_in) /\
    expires_at new = clock w + Z.of_nat d + expires_in.
Proof.
  intros Hl [_ Hprov] Hrun.
  destruct (falsy (code (config self))) eqn:Hc.
  { rewrite (ensure_no_code self w Hl Hc) in Hrun. discriminate. }
  destruct (falsy_false _ Hc) as (c & Hcode & Hne).
  rewrite (ensure_bootstrap self w c Hl Hcode Hne) in Hrun.
  unfold bind in Hrun.
  destruct (_exchange_code_for_tokens self c w) as [[td|e] w1] eqn:E; [|discriminate].
  destruct (exchange_ok _ _ _ _ _ E)
    as (d & resp & rest & m & ein & Hnet & Hw1 & Hst & Hp & Hein & Ha & Hr & Hty & Hsc & Hex).
  destruct (save_token_ok _ _ _ _ _ Hrun) as (inst & Hi & _ & Hw').
  assert (Hls : lookup_token (db self) w' = Some td).
  { apply (lookup_after_save _ td w1); [subst w1; exact Hprov | exact Hrun]. }
  assert (Htr : trace w' = trace w ++ [EvRequest (exchange_request self c);
                                        EvSaveToken (mkTokenRow "truelayer" inst td
                                                                (clock w + Z.of_nat d))]).
  { rewrite Hw'. subst w1. simpl. rewrite <- app_assoc. reflexivity. }
  exists c, inst, d, resp, rest, m, td, ein.
  rewrite get_token_lookup, Hls.
  repeat split; assumption.
Qed.

Lemma bootstrap_persists_reply_witness :
  let reply := JObj [("access_token", JStr "access-1");
                     ("refresh_token", JStr "refresh-1");
                     ("token_type", JStr "Bearer");
                     ("scope", JStr "info cards");
                     ("expires_in", JInt 3600)] in
  let w := fixture_world 1000 [] [json_reply 200 reply] in
  let self := TrueLayer.mk (mkConfig "client" "secret" (Some "one-time-code"))
                           (Database.mk (Some "barclays")) in
  exists w', _ensure_tokens_ready self w = (Ok tt, w') /\
             Database.get_token (db self) w'
             = (Ok (Some (mkTokenData "access-1" "refresh-1" "Bearer" "info cards" 4601)), w').
Proof.
  intros reply w self.
  exists (snd (_ensure_tokens_ready self w)). split; [reflexivity|].
  destruct (bootstrap_persists_reply self w (snd (_ensure_tokens_ready self w))
              eq_refl store_ok_nil eq_refl)
    as (c & inst & d & resp & rest & m & new & ein & _ & _ & Hnet & _ & Hp & _ & Hg
        & Ha & Hr & Hty & Hsc & Hein & Hex).
  inversion Hnet; subst d resp rest. simpl in Hp. inversion Hp; subst m.
  simpl in Ha, Hr, Hty, Hsc, Hein.
  inversion Ha; inversion Hr; inversion Hty; inversion Hsc; inversion Hein; subst ein.
  rewrite Hg. destruct new; simpl in *; subst. reflexivity.
Defined.

Lemma refresh_success self w w' old :
  lookup_token (db self) w = Some old ->
  Forall (fun r => tk_provider r = "truelayer") (tokens w) ->
  expires_at old <= clock w + TOKEN_SKEW_SECONDS ->
  _ensure_tokens_ready self w = (Ok tt, w') ->
  exists td w1,
    _refresh_tokens self (refresh_token old) w = (Ok td, w1) /\
    tokens w1 = tokens w /\
    lookup_token (db self) w' = Some td.
Proof.
  intros Hl Hprov Hdue Hrun.
  rewrite (ensure_due self w old Hl Hdue) in Hrun.
  destruct (lookup_token_institution _ _ _ Hl) as [inst Hinst].
  unfold bind in Hrun.
  destruct (_refresh_tokens self (refresh_token old) w) as [[td|e] w1] eqn:E;
    [|discriminate].
  assert (Hw1 : tokens w1 = tokens w).
  { pose proof (refresh_tokens_world self (refresh_token old) w) as Hw.
    rewrite E in Hw. simpl in Hw. rewrite Hw. apply http_send_tokens. }
  exists td, w1. split; [reflexivity|]. split; [exact Hw1|].
  apply (lookup_after_save _ td w1); [rewrite Hw1; exact Hprov | exact Hrun].
Qed.

Lemma bootstrap_success self w w' :
  lookup_token (db self) w = None ->
  Forall (fun r => tk_provider r = "truelayer") (tokens w) ->
  _ensure_tokens_ready self w = (Ok tt, w') ->
  exists td, lookup_token (db self) w' = Some td.
Proof.
  intros Hl Hprov Hrun.
  destruct (falsy (code (config self))) eqn:Hc.
  { rewrite (ensure_no_code self w Hl Hc) in Hrun. discriminate. }
  destruct (falsy_false _ Hc) as (c & Hcode & Hne).
  rewrite (ensure_bootstrap self w c Hl Hcode Hne) in Hrun.
  unfold bind in Hrun.
  destruct (_exchange_code_for_tokens self c w) as [[td|e] w1] eqn:E; [|discriminate].
  assert (Hw1 : tokens w1 = tokens w).
  { pose proof (exchange_world self c w) as Hw.
    rewrite E in Hw. simpl in Hw. rewrite Hw. apply http_send_tokens. }
  exists td. apply (lookup_after_save _ td w1); [rewrite Hw1; exact Hprov | exact Hrun].
Qed.

(** X7. Once [_ensure_tokens_ready] has succeeded, the store holds a token
    for the institution, and a manager built later on the same rows, with
    any configuration (no authorization code needed), succeeds without
    sending or writing anything for as long as [now + 60 < expires_at]. *)
Theorem token_survives_restart (self : TrueLayer.t) (w w' : World) :
  store_ok (tokens w) ->
  _ensure_tokens_ready self w = (Ok tt, w') ->
  exists tok,
    Database.get_token (db self) w' = (Ok (Some tok), w') /\
    forall cfg2 w2,
      tokens w2 = tokens w' ->
      clock w2 + TOKEN_SKEW_SECONDS < expires_at tok ->
      _ensure_tokens_ready (TrueLayer.mk cfg2 (db self)) w2 = (Ok tt, w2).
Proof.
  intros [_ Hprov] Hrun.
  assert (Hex : exists tok, lookup_token (db self) w' = Some tok).
  { destruct (lookup_token (db self) w) as [old|] eqn:Hl.
    - destruct (Z.le_gt_cases (expires_at old) (clock w + TOKEN_SKEW_SECONDS)) as [Hdue|Hfresh].
      + destruct (refresh_success self w w' old Hl Hprov Hdue Hrun) as (td & w1 & _ & _ & H).
        eauto.
      + rewrite (ensure_fresh self w old Hl) in Hrun by lia.
        inversion Hrun; subst w'. eauto.
    - apply (bootstrap_success self w w' Hl Hprov Hrun). }
  destruct Hex as [tok Htok]. exists tok. rewrite get_token_lookup, Htok.
  split; [reflexivity|].
  intros cfg2 w2 Hsame Hfresh. apply (ensure_fresh _ w2 tok); [|exact Hfresh].
  unfold lookup_token in *. cbn [db]. rewrite Hsame. exact Htok.
Qed.

Lemma token_survives_restart_witness :
  let reply := JObj [("access_token", JStr "access-1");
                     ("refresh_token", JStr "refresh-1");
                     ("token_type", JStr "Bearer");
                     ("scope", JStr "info cards");
                     ("expires_in", JInt 3600)] in
  let w := fixture_world 1000 [] [json_reply 200 reply] in
  let self := TrueLayer.mk (mkConfig "client" "secret" (Some "one-time-code"))
                           (Database.mk (Some "barclays")) in
  let w' := snd (_ensure_tokens_ready self w) in
  _ensure_tokens_ready (TrueLayer.mk (mkConfig "client" "secret" None)
                                     (Database.mk (Some "barclays"))) (advance 100 w')
  = (Ok tt, advance 100 w').
Proof.
  intros reply w self w'.
  destruct (token_survives_restart self w w' store_ok_nil eq_refl) as (tok & Hg & Hnext).
  apply Hnext; [reflexivity|].
  vm_compute in Hg. inversion Hg; subst tok. reflexivity.
Defined.

(** The world after the bootstrap branch of [_ensure_tokens_ready]. *)
Lemma bootstrap_branch self c w :
  let run := (exchanged <- _exchange_code_for_tokens self c ;;
              Database.save_token (db self) exchanged) w in
  let w1 := snd (http_send (exchange_request self c) w) in
  match fst run with
  | Raise _ => snd run = w1
  | Ok _ => exists row, snd run = emit (EvSaveToken row)
                                      (set_tokens (Database.upsert row (tokens w1)) w1)
  end.
Proof.
  intros run w1.
  pose proof (exchange_world self c w) as Hw.
  fold (exchange_request self c) in Hw. fold w1 in Hw.
  subst run. unfold bind.
  destruct (_exchange_code_for_tokens self c w) as [[td|e] w'] eqn:E;
    simpl in Hw; subst w'; simpl; [|reflexivity].
  destruct (save_token_cases (db self) td w1) as [(i & _ & _ & Hr)|[e Hr]];
    rewrite Hr; simpl; eauto.
Qed.

(** X8. A bootstrap that fails stores nothing and has sent the exchange
    request, with the configured code, once.  When the reply has a status
    other than 200 and a JSON body, the failure is the "Failed to exchange
    code" error carrying that status and body. *)
Theorem exchange_failure_stores_nothing (self : TrueLayer.t) (w : World) (c : string) :
  lookup_token (db self) w = None ->
  code (config self) = Some c ->
  c <> "" ->
  let run := _ensure_tokens_ready self w in
  (forall e, fst run = Raise e ->
             tokens (snd run) = tokens w /\
             trace (snd run) = trace w ++ [EvRequest (exchange_request self c)]) /\
  (forall d resp rest data,
      network w = Reply d resp :: rest ->
      status_code resp <> 200 ->
      parsed resp = Some data ->
      fst run = Raise (TokenExchangeFailed (status_code resp) data)).
Proof.
  intros Hl Hc Hne run. subst run.
  rewrite (ensure_bootstrap self w c Hl Hc Hne).
  pose proof (bootstrap_branch self c w) as Hb. cbv zeta in Hb.
  set (run := bind _ _ w) in *.
  split.
  - intros e He. rewrite He in Hb. rewrite Hb, http_send_tokens, http_send_trace.
    split; reflexivity.
  - intros d resp rest data Hnet Hst Hp. subst run.
    unfold _exchange_code_for_tokens, bind.
    fold (exchange_request self c).
    rewrite (http_send_reply _ _ _ _ _ Hnet).
    unfold response_json. rewrite Hp. simpl.
    apply Z.eqb_neq in Hst. rewrite Hst. reflexivity.
Qed.

Lemma exchange_failure_stores_nothing_witness :
  let body := JObj [("error", JStr "invalid_grant")] in
  let w := fixture_world 1000 [] [json_reply 400 body] in
  let self := TrueLayer.mk (mkConfig "client" "secret" (Some "used-code"))
                           (Database.mk (Some "barclays")) in
  fst (_ensure_tokens_ready self w) = Raise (TokenExchangeFailed 400 body) /\
  tokens (snd (_ensure_tokens_ready self w)) = [].
Proof.
  intros body w self.
  assert (Hne : "used-code" <> "") by discriminate.
  destruct (exchange_failure_stores_nothing self w "used-code" eq_refl eq_refl Hne)
    as [Hkeep Hfail].
  assert (H : fst (_ensure_tokens_ready self w) = Raise (TokenExchangeFailed 400 body)).
  { apply (Hfail 1%nat (mkResponse 400 "(json)" (Some body)) [] body).
    - reflexivity.
    - simpl. discriminate.
    - reflexivity. }
  split; [exact H | exact (proj1 (Hkeep _ H))].
Defined.

(** X9. The exchange reads the reply's "scope": a 200 reply that carries
    the tokens and [expires_in] but no "scope" makes the bootstrap fail with
    KeyError "scope", after the code has been sent, and nothing is stored. *)
Theorem bootstrap_reply_without_scope
        (self : TrueLayer.t) (w : World) (c : string) (d : nat) (resp : Response)
        (rest : list NetReply) (m : list (string * json)) (a r ty : string) (e : Z) :
  lookup_token (db self) w = None ->
  code (config self) = Some c ->
  c <> "" ->
  network w = Reply d resp :: rest ->
  status_code resp = 200 ->
  parsed resp = Some (JObj m) ->
  dict_get "expires_in" m = Some (JInt e) ->
  dict_get "access_token" m = Some (JStr a) ->
  dict_get "refresh_token" m = Some (JStr r) ->
  dict_get "token_type" m = Some (JStr ty) ->
  dict_get "scope" m = None ->
  _ensure_tokens_ready self w =
  (Raise (KeyError "scope"), consume d rest (emit (EvRequest (exchange_request self c)) w)).
Proof.
  intros Hl Hc Hne Hnet Hst Hp He Ha Hr Hty Hsc.
  rewrite (ensure_bootstrap self w c Hl Hc Hne).
  unfold _exchange_code_for_tokens, bind. fold (exchange_request self c).
  rewrite (http_send_reply _ _ _ _ _ Hnet).
  unfold response_json. rewrite Hp. simpl. rewrite Hst. simpl.
  rewrite He. simpl. rewrite Ha. simpl. rewrite Hr. simpl. rewrite Hty. simpl.
  rewrite Hsc. reflexivity.
Qed.

Lemma bootstrap_reply_without_scope_witness :
  let m := [("access_token", JStr "access-1");
            ("refresh_token", JStr "refresh-1");
            ("token_type", JStr "Bearer");
            ("expires_in", JInt 3600)] in
  let w := fixture_world 1000 [] [json_reply 200 (JObj m)] in
  let self := TrueLayer.mk (mkConfig "client" "secret" (Some "one-time-code"))
                           (Database.mk (Some "barclays")) in
  fst (_ensure_tokens_ready self w) = Raise (KeyError "scope") /\
  tokens (snd (_ensure_tokens_ready self w)) = [].
Proof.
  intros m w self.
  assert (Hne : "one-time-code" <> "") by discriminate.
  rewrite (bootstrap_reply_without_scope self w "one-time-code" 1
             (mkResponse 200 "(json)" (Some (JObj m))) [] m
             "access-1" "refresh-1" "Bearer" 3600
             eq_refl eq_refl Hne eq_refl eq_refl eq_refl eq_refl eq_refl eq_refl
             eq_refl eq_refl).
  split; reflexivity.
Defined.

(** X10. A due refresh whose reply has status 200 and a JSON object with
    string "access_token", "refresh_token", "token_type" and integer
    "expires_in", whatever else it holds, succeeds exactly when the new
    expiry (time of the reply + [expires_in]) and the time of the reply fit
    an SQLite INTEGER: the world it leaves is the one after the reply with
    the row ("truelayer", institution) upserted, carrying the old scope.
    Otherwise [save_token] raises OverflowError and the world is the one
    after the reply, with no row written. *)
Theorem refresh_succeeds
        (self : TrueLayer.t) (w : World) (old : TokenData) (inst : string) (d : nat)
        (resp : Response) (rest : list NetReply) (m : list (string * json))
        (a r ty : string) (e : Z) :
  lookup_token (db self) w = Some old ->
  Database.institution (db self) = Some inst ->
  expires_at old <= clock w + TOKEN_SKEW_SECONDS ->
  network w = Reply d resp :: rest ->
  status_code resp = 200 ->
  parsed resp = Some (JObj m) ->
  dict_get "expires_in" m = Some (JInt e) ->
  dict_get "access_token" m = Some (JStr a) ->
  dict_get "refresh_token" m = Some (JStr r) ->
  dict_get "token_type" m = Some (JStr ty) ->
  let w1 := consume d rest (emit (EvRequest (refresh_request self old)) w) in
  let td := mkTokenData a r ty (scope old) (clock w + Z.of_nat d + e) in
  let row := mkTokenRow "truelayer" inst td (clock w + Z.of_nat d) in
  _ensure_tokens_ready self w =
  if storable td (clock w + Z.of_nat d)
  then (Ok tt, emit (EvSaveToken row) (set_tokens (Database.upsert row (tokens w)) w1))
  else (Raise OverflowError, w1).
Proof.
  intros Hl Hi Hdue Hnet Hst Hp He Ha Hr Hty w1 td row.
  rewrite (ensure_due self w old Hl Hdue).
  unfold lookup_token in Hl.
  destruct (find (Database.token_row_matches (db self)) (tokens w)) as [row0|] eqn:Hf;
    [|discriminate].
  inversion Hl; subst old. clear Hl.
  assert (Hrefresh : _refresh_tokens self (refresh_token (tk_data row0)) w = (Ok td, w1)).
  { unfold _refresh_tokens, bind. fold (refresh_request self (tk_data row0)).
    rewrite (http_send_reply _ _ _ _ _ Hnet). fold w1.
    unfold response_json. rewrite Hp. simpl. rewrite Hst. simpl.
    rewrite He. simpl. rewrite Ha. simpl. rewrite Hr. simpl. rewrite Hty. simpl.
    unfold Database.get_token. simpl. rewrite Hf. reflexivity. }
  rewrite (bind_ok _ _ _ _ _ Hrefresh).
  destruct self as [cfg [i]]. cbn [db Database.institution] in *. subst i.
  change (clock w + Z.of_nat d) with (clock w1) in *.
  destruct (storable td (clock w1)) eqn:Hs.
  - rewrite (save_token_run inst td w1 Hs). reflexivity.
  - apply save_token_overflow, Hs.
Qed.

Lemma refresh_succeeds_witness :
  let m := [("access_token", JStr "access-1");
            ("refresh_token", JStr "refresh-1");
            ("token_type", JStr "Bearer");
            ("id_token", JNull);
            ("expires_in", JInt 3600)] in
  let w := fixture_world 1000 [fixture_row "barclays" 1060] [json_reply 200 (JObj m)] in
  let self := manager (Some "barclays") w in
  fst (_ensure_tokens_ready self w) = Ok tt /\
  tokens (snd (_ensure_tokens_ready self w)) =
  [mkTokenRow "truelayer" "barclays"
              (mkTokenData "access-1" "refresh-1" "Bearer" "info accounts cards" 4601) 1001].
Proof.
  intros m w self.
  assert (Hdue : expires_at (fixture_token 1060) <= clock w + TOKEN_SKEW_SECONDS).
  { vm_compute. discriminate. }
  rewrite (refresh_succeeds self w (fixture_token 1060) "barclays" 1
             (mkResponse 200 "(json)" (Some (JObj m))) [] m
             "access-1" "refresh-1" "Bearer" 3600
             eq_refl eq_refl Hdue eq_refl eq_refl eq_refl eq_refl eq_refl eq_refl eq_refl).
  split; reflexivity.
Defined.

(** X11. Whatever the world, [_ensure_tokens_ready] does one of three
    things: nothing at all; one POST to the token endpoint followed by a
    failure, with the rows of [tokens] as they were; or one POST to the token
    endpoint followed by the upsert of one row and success.  It sends no
    other request. *)
Theorem ensure_tokens_ready_effects (self : TrueLayer.t) (w : World) :
  let run := _ensure_tokens_ready self w in
  (snd run = w) \/
  (exists rq e,
      is_token_post (EvRequest rq) = true /\
      fst run = Raise e /\
      trace (snd run) = trace w ++ [EvRequest rq] /\
      tokens (snd run) = tokens w) \/
  (exists rq row,
      is_token_post (EvRequest rq) = true /\
      fst run = Ok tt /\
      trace (snd run) = trace w ++ [EvRequest rq; EvSaveToken row] /\
      tokens (snd run) = Database.upsert row (tokens w)).
Proof.
  intros run. subst run.
  destruct (lookup_token (db self) w) as [old|] eqn:Hl.
  - destruct (Z.le_gt_cases (expires_at old) (clock w + TOKEN_SKEW_SECONDS)) as [Hdue|Hfresh].
    + right. rewrite (ensure_due self w old Hl Hdue).
      pose proof (refresh_branch self old w Hl) as Hb. cbv zeta in Hb.
      set (run := bind _ _ w) in *.
      destruct (fst run) as [[]|e] eqn:Hr.
      * right. destruct Hb as [row Hb]. exists (refresh_request self old), row.
        rewrite Hb. simpl. rewrite http_send_trace, http_send_tokens, <- app_assoc.
        repeat split.
      * left. exists (refresh_request self old), e.
        rewrite Hb, http_send_trace, http_send_tokens. repeat split.
    + left. rewrite (ensure_fresh self w old Hl) by lia. reflexivity.
  - destruct (falsy (code (config self))) eqn:Hc.
    { left. rewrite (ensure_no_code self w Hl Hc). reflexivity. }
    destruct (falsy_false _ Hc) as (c & Hcode & Hne).
    right. rewrite (ensure_bootstrap self w c Hl Hcode Hne).
    pose proof (bootstrap_branch self c w) as Hb. cbv zeta in Hb.
    set (run := bind _ _ w) in *.
    destruct (fst run) as [[]|e] eqn:Hr.
    + right. destruct Hb as [row Hb]. exists (exchange_request self c), row.
      rewrite Hb. simpl. rewrite http_send_trace, http_send_tokens, <- app_assoc.
      repeat split.
    + left. exists (exchange_request self c), e.
      rewrite Hb, http_send_trace, http_send_tokens. repeat split.
Qed.

(** X12. Refresh tokens rotate: after a refresh that succeeded, the next
    refresh, whenever it is due, sends the refresh token that the reply to
    the previous one carried. *)
Theorem refresh_token_rotates (self : TrueLayer.t) (w w' : World) (old : TokenData) :
  lookup_token (db self) w = Some old ->
  store_ok (tokens w) ->
  expires_at old <= clock w + TOKEN_SKEW_SECONDS ->
  _ensure_tokens_ready self w = (Ok tt, w') ->
  exists d resp rest m rt new,
    network w = Reply d resp :: rest /\
    parsed resp = Some (JObj m) /\
    dict_get "refresh_token" m = Some (JStr rt) /\
    lookup_token (db self) w' = Some new /\
    forall w2,
      tokens w2 = tokens w' ->
      expires_at new <= clock w2 + TOKEN_SKEW_SECONDS ->
      exists evs,
        trace (snd (_ensure_tokens_ready self w2)) =
        trace w2 ++ EvRequest (POST_form token_url form_headers (refresh_payload self rt))
                 :: evs.
Proof.
  intros Hl [_ Hprov] Hdue Hrun.
  destruct (refresh_success self w w' old Hl Hprov Hdue Hrun) as (td & w1 & E & _ & Hl').
  destruct (refresh_tokens_ok _ _ _ _ _ E)
    as (d & resp & rest & m & old' & ein & Hnet & _ & Hp & _ & _ & _ & Hr & _).
  exists d, resp, rest, m, (refresh_token td), td.
  repeat (split; [assumption|]).
  intros w2 Hsame Hdue2.
  assert (Hl2 : lookup_token (db self) w2 = Some td).
  { unfold lookup_token in *. rewrite Hsame. exact Hl'. }
  rewrite (ensure_due self w2 td Hl2 Hdue2).
  pose proof (refresh_branch self td w2 Hl2) as Hb. cbv zeta in Hb.
  set (run := bind _ _ w2) in *.
  fold (refresh_request self td).
  destruct (fst run).
  - destruct Hb as [row ->]. simpl. rewrite http_send_trace, <- app_assoc.
    eexists. reflexivity.
  - rewrite Hb, http_send_trace. eexists. reflexivity.
Qed.

Lemma refresh_token_rotates_witness :
  let m := [("access_token", JStr "access-1");
            ("refresh_token", JStr "refresh-1");
            ("token_type", JStr "Bearer");
            ("expires_in", JInt 30)] in
  let w := fixture_world 1000 [fixture_row "barclays" 1060]
             [json_reply 200 (JObj m); json_reply 200 (JObj m)] in
  let self := manager (Some "barclays") w in
  let w' := snd (_ensure_tokens_ready self w) in
  exists evs,
    trace (snd (_ensure_tokens_ready self w')) =
    trace w' ++ EvRequest (POST_form token_url form_headers
                                     (refresh_payload self "refresh-1")) :: evs.
Proof.
  intros m w self w'.
  assert (Hok : store_ok (tokens w)).
  { split; [repeat constructor; simpl; tauto | repeat constructor]. }
  assert (Hdue : expires_at (fixture_token 1060) <= clock w + TOKEN_SKEW_SECONDS).
  { vm_compute. discriminate. }
  destruct (refresh_token_rotates self w w' (fixture_token 1060) eq_refl Hok Hdue eq_refl)
    as (d & resp & rest & m' & rt & new & Hnet & Hp & Hr & Hl & Hnext).
  inversion Hnet; subst d resp rest. simpl in Hp. inversion Hp; subst m'.
  simpl in Hr. inversion Hr; subst rt.
  apply Hnext; [reflexivity|].
  vm_compute in Hl. inversion Hl; subst new. vm_compute. discriminate.
Defined.

Lemma ensure_never_ValueError self w msg w' :
  _ensure_tokens_ready self w <> (Raise (ValueError msg), w').
Proof.
  intros H.
  unfold _ensure_tokens_ready, _exchange_code_for_tokens, _refresh_tokens,
    Database.save_token, Database.get_token, bind, http_send, response_json,
    subscript, py_add_int, make_TokenData, as_str, time_time, ret, raise in H.
  crunch H.
Qed.

(** X13. [__init__] fails fast on the configuration: it raises the
    "must be set" ValueError exactly when TRUE_LAYER_CLIENT_ID or
    TRUE_LAYER_CLIENT_SECRET is unset or empty, and then it has read no row,
    sent no request and written nothing. *)
Theorem init_fails_fast (institution : option string) (w : World) :
  ((exists msg, fst (init institution w) = Raise (ValueError msg)) <->
   client_configured w = false) /\
  (client_configured w = false -> snd (init institution w) = w).
Proof.
  split; [split|].
  - intros [msg H]. destruct (client_configured w) eqn:Hc; [|reflexivity].
    exfalso. rewrite init_configured in H by exact Hc.
    unfold bind in H.
    destruct (_ensure_tokens_ready (manager institution w) w) as [[[]|e] w1] eqn:E;
      simpl in H; [discriminate|].
    inversion H; subst e. exact (ensure_never_ValueError _ _ _ _ E).
  - intros Hc. rewrite (init_unconfigured institution w Hc). eexists. reflexivity.
  - intros Hc. rewrite (init_unconfigured institution w Hc). reflexivity.
Qed.

(** X14. A manager for the institution None can never be built: with no
    code it fails on the missing token, and with a code the exchange is sent
    but the row is refused by the NOT NULL column.  No token row is ever
    written. *)
Theorem init_null_institution_fails (w : World) :
  exists e, fst (init None w) = Raise e /\
            tokens (snd (init None w)) = tokens w.
Proof.
  destruct (client_configured w) eqn:Hcfg.
  2:{ rewrite (init_unconfigured None w Hcfg). eexists. split; reflexivity. }
  rewrite init_configured by exact Hcfg.
  set (self := manager None w).
  assert (Hl : lookup_token (db self) w = None).
  { unfold lookup_token, Database.token_row_matches, Database.sql_eq. simpl.
    rewrite find_never. reflexivity. }
  unfold bind.
  destruct (falsy (code (config self))) eqn:Hc.
  { rewrite (ensure_no_code self w Hl Hc). eexists. split; reflexivity. }
  destruct (falsy_false _ Hc) as (c & Hcode & Hne).
  rewrite (ensure_bootstrap self w c Hl Hcode Hne).
  unfold bind.
  pose proof (exchange_world self c w) as Hw.
  destruct (_exchange_code_for_tokens self c w) as [[td|e] w1]; simpl in Hw; subst w1.
  - destruct (save_token_cases (db self) td
                (snd (http_send (POST_form token_url form_headers
                                           (exchange_payload self c)) w)))
      as [(i & Hi & _ & _)|[e Hr]]; [discriminate Hi|].
    rewrite Hr. eexists. split; [reflexivity|]. apply http_send_tokens.
  - eexists. split; [reflexivity|]. apply http_send_tokens.
Qed.

Lemma fetch_outcome rq failed w j w' :
  bind (http_send rq) (checked_json failed) w = (Ok j, w') <->
  exists d resp rest,
    network w = Reply d resp :: rest /\
    status_code resp = 200 /\
    parsed resp = Some j /\
    w' = consume d rest (emit (EvRequest rq) w).
Proof.
  unfold bind, http_send, checked_json, response_json, bind, ret, raise. simpl.
  split.
  - intros H. destruct (network w) as [|[d resp|d] rest]; try discriminate.
    destruct (Z.eqb_spec (status_code resp) 200) as [Hs|Hs]; simpl in H.
    + destruct (parsed resp) as [j'|] eqn:Hp; [|discriminate].
      inversion H. subst. exists d, resp, rest. repeat split; assumption.
    + destruct (parsed resp); discriminate.
  - intros (d & resp & rest & Hnet & Hst & Hp & ->).
    rewrite Hnet, Hst, Hp. reflexivity.
Qed.

Lemma fetch_rejected rq failed w d resp rest data :
  network w = Reply d resp :: rest ->
  status_code resp <> 200 ->
  parsed resp = Some data ->
  bind (http_send rq) (checked_json failed) w =
  (Raise (RuntimeError (failed (status_code resp) data)),
   consume d rest (emit (EvRequest rq) w)).
Proof.
  intros Hnet Hst Hp. unfold bind. rewrite (http_send_reply _ _ _ _ _ Hnet).
  unfold checked_json, response_json, bind. apply Z.eqb_neq in Hst.
  rewrite Hst, Hp. reflexivity.
Qed.

(** X15. [_list_accounts] and [_list_cards], with a token stored, return
    the body exactly when the reply has status 200 and a JSON body; with a
    reply of another status and a JSON body they raise their own "Failed to
    list" error with that status and body; with no token stored they raise
    AttributeError before any request is sent. *)
Theorem listing_outcome (self : TrueLayer.t) (w : World) :
  (lookup_token (db self) w = None ->
   _list_accounts self w = (Raise AttributeError, w) /\
   _list_cards self w = (Raise AttributeError, w)) /\
  (forall tok, lookup_token (db self) w = Some tok ->
     let headers := [("Authorization", ("Bearer " ++ access_token tok)%string);
                     ("Content-Type", "application/json")] in
     (forall j w',
         _list_accounts self w = (Ok j, w') <->
         exists d resp rest,
           network w = Reply d resp :: rest /\ status_code resp = 200 /\
           parsed resp = Some j /\
           w' = consume d rest (emit (EvRequest (GET accounts_url headers [])) w)) /\
     (forall j w',
         _list_cards self w = (Ok j, w') <->
         exists d resp rest,
           network w = Reply d resp :: rest /\ status_code resp = 200 /\
           parsed resp = Some j /\
           w' = consume d rest (emit (EvRequest (GET cards_url headers [])) w)) /\
     (forall d resp rest data,
         network w = Reply d resp :: rest ->
         status_code resp <> 200 ->
         parsed resp = Some data ->
         fst (_list_accounts self w)
           = Raise (RuntimeError (FailedListAccounts (status_code resp) data)) /\
         fst (_list_cards self w)
           = Raise (RuntimeError (FailedListCards (status_code resp) data)))).
Proof.
  split.
  - intros Hl. unfold _list_accounts, _list_cards, bearer, bind.
    rewrite get_token_lookup, Hl. split; reflexivity.
  - intros tok Hl headers.
    assert (Ha : forall w0, _list_accounts self w = w0 <->
                            bind (http_send (GET accounts_url headers []))
                                 (checked_json FailedListAccounts) w = w0).
    { intros w0. unfold _list_accounts. unfold bind at 1.
      rewrite (bearer_run _ _ _ Hl). reflexivity. }
    assert (Hc : forall w0, _list_cards self w = w0 <->
                            bind (http_send (GET cards_url headers []))
                                 (checked_json FailedListCards) w = w0).
    { intros w0. unfold _list_cards. unfold bind at 1.
      rewrite (bearer_run _ _ _ Hl). reflexivity. }
    split; [|split].
    + intros j w'. rewrite Ha. apply fetch_outcome.
    + intros j w'. rewrite Hc. apply fetch_outcome.
    + intros d resp rest data Hnet Hst Hp.
      rewrite (proj2 (Ha _) (fetch_rejected _ FailedListAccounts _ _ _ _ _ Hnet Hst Hp)).
      rewrite (proj2 (Hc _) (fetch_rejected _ FailedListCards _ _ _ _ _ Hnet Hst Hp)).
      split; reflexivity.
Qed.

Lemma list_transactions_unknown self name df dt w :
  find (Database.account_row_matches (db self) name) (accounts w) = None ->
  list_transactions self name df dt w
  = (Raise (NotFound name (Database.institution (db self))), w).
Proof.
  intros Hf. unfold list_transactions, Database.is_credit_card, Database.fetch_account, bind.
  rewrite Hf. reflexivity.
Qed.

Lemma list_transactions_row self name df dt w r :
  find (Database.account_row_matches (db self) name) (accounts w) = Some r ->
  list_transactions self name df dt w =
  (if String.eqb (type_text (ac_type r)) "credit"
   then _list_card_transactions self name df dt
   else _list_account_transactions self name df dt) w.
Proof.
  intros Hf. unfold list_transactions, Database.is_credit_card, Database.fetch_account.
  unfold bind at 1. unfold bind at 1. rewrite Hf. unfold ret at 1.
  destruct (String.eqb (type_text (ac_type r)) "credit"); reflexivity.
Qed.

Lemma transactions_run (card : bool) self name df dt w r tok :
  find (Database.account_row_matches (db self) name) (accounts w) = Some r ->
  lookup_token (db self) w = Some tok ->
  (if card then _list_card_transactions self name df dt
   else _list_account_transactions self name df dt) w =
  bind (http_send
          (GET ((if card then card_transactions_url else account_transactions_url)
                  (ac_truelayer_account_id r))
               [("Authorization", ("Bearer " ++ access_token tok)%string)]
               [("from", df); ("to", dt)]))
       (checked_json (if card then FailedListCardTransactions
                      else FailedListAccountTransactions)) w.
Proof.
  intros Hr Hl.
  assert (Hid : Database.get_account_id (db self) name w
                = (Ok (ac_truelayer_account_id r), w)).
  { unfold Database.get_account_id, Database.fetch_account, bind. rewrite Hr. reflexivity. }
  destruct card; unfold _list_card_transactions, _list_account_transactions;
    rewrite (bind_ok _ _ _ _ _ Hid), (bind_ok _ _ _ _ _ (bearer_run _ _ _ Hl));
    reflexivity.
Qed.

(** X16. [list_transactions] never writes a token row.  For an account
    with no row it raises "No account found", and for an account with a row
    but no token stored it raises AttributeError; in both cases the world is
    as it was and nothing is sent.  With a row and a token it sends exactly
    one request and takes its reply: a GET for the row's
    [truelayer_account_id], to the card-transactions endpoint when the row's
    type is "credit" and to the account-transactions endpoint otherwise,
    carrying the stored access token and the two dates; it returns the body
    exactly when the reply has status 200 and a JSON body. *)
Theorem list_transactions_effects (self : TrueLayer.t) (account_name : string)
        (date_from date_to : option string) (w : World) :
  let run := list_transactions self account_name date_from date_to w in
  tokens (snd run) = tokens w /\
  match find (Database.account_row_matches (db self) account_name) (accounts w),
        lookup_token (db self) w with
  | None, _ => run = (Raise (NotFound account_name (Database.institution (db self))), w)
  | Some _, None => run = (Raise AttributeError, w)
  | Some r, Some tok =>
      let card := String.eqb (type_text (ac_type r)) "credit" in
      let rq := GET ((if card then card_transactions_url else account_transactions_url)
                       (ac_truelayer_account_id r))
                    [("Authorization", ("Bearer " ++ access_token tok)%string)]
                    [("from", date_from); ("to", date_to)] in
      snd run = snd (http_send rq w) /\
      trace (snd run) = trace w ++ [EvRequest rq] /\
      endpoint_of rq = (if card then CardTransactions else AccountTransactions) /\
      (forall j w',
          run = (Ok j, w') <->
          exists d resp rest,
            network w = Reply d resp :: rest /\ status_code resp = 200 /\
            parsed resp = Some j /\ w' = consume d rest (emit (EvRequest rq) w))
  end.
Proof.
  intros run. subst run.
  destruct (find (Database.account_row_matches (db self) account_name) (accounts w))
    as [r|] eqn:Hf.
  - rewrite (list_transactions_row _ _ _ _ _ _ Hf).
    set (card := String.eqb (type_text (ac_type r)) "credit").
    destruct (lookup_token (db self) w) as [tok|] eqn:Hl.
    + rewrite (transactions_run card self account_name date_from date_to w r tok Hf Hl).
      set (rq := GET _ _ _).
      assert (Hw : snd (bind (http_send rq)
                             (checked_json (if card then FailedListCardTransactions
                                            else FailedListAccountTransactions)) w)
                   = snd (http_send rq w)).
      { apply bind_then_readonly. intros resp. apply readonly_checked_json. }
      rewrite Hw, http_send_tokens, http_send_trace.
      split; [reflexivity|]. split; [reflexivity|]. split; [reflexivity|]. split.
      * subst rq. destruct card; [apply endpoint_card | apply endpoint_account].
      * intros j w'. apply fetch_outcome.
    + rewrite (transactions_no_token card self account_name date_from date_to w r Hf Hl).
      simpl. split; reflexivity.
  - rewrite (list_transactions_unknown _ _ _ _ _ Hf). simpl.
    split; reflexivity.
Qed.

(** X17. When the account's row has a NULL [truelayer_account_id], the
    lookup does not fail and [list_transactions] asks the provider for the
    transactions of the account named "None". *)
Theorem null_external_id_is_requested (self : TrueLayer.t) (account_name : string)
        (date_from date_to : option string) (w : World) (r : AccountRow)
        (tok : TokenData) :
  find (Database.account_row_matches (db self) account_name) (accounts w) = Some r ->
  ac_truelayer_account_id r = None ->
  lookup_token (db self) w = Some tok ->
  trace (snd (list_transactions self account_name date_from date_to w)) =
  trace w ++
  [EvRequest
     (GET (if String.eqb (type_text (ac_type r)) "credit"
           then "https://api.truelayer.com/data/v1/cards/None/transactions"
           else "https://api.truelayer.com/data/v1/accounts/None/transactions")
          [("Authorization", ("Bearer " ++ access_token tok)%string)]
          [("from", date_from); ("to", date_to)])].
Proof.
  intros Hf Hnull Hl.
  rewrite (list_transactions_row _ _ _ _ _ _ Hf).
  rewrite (transactions_world _ self account_name date_from date_to w r tok Hf Hl).
  rewrite http_send_trace, Hnull.
  destruct (String.eqb (type_text (ac_type r)) "credit"); reflexivity.
Qed.

Lemma null_external_id_is_requested_witness :
  let w := fixture_world 1000 [fixture_row "barclays" 5000] [] in
  trace (snd (list_transactions (manager (Some "barclays") w) "savings1" None None w)) =
  [EvRequest (GET "https://api.truelayer.com/data/v1/accounts/None/transactions"
                  [("Authorization", "Bearer access-0")]
                  [("from", None); ("to", None)])].
Proof.
  intros w.
  exact (null_external_id_is_requested (manager (Some "barclays") w) "savings1" None None w
           (mkAccountRow 3 "savings1" debit (Some "barclays") None (Some "actual-3"))
           (fixture_token 5000) eq_refl eq_refl eq_refl).
Defined.

(** ** What no computation does *)

Lemma keeps_readonly R {A} (c : Py A) :
  (forall w, R w w) -> readonly c -> keeps R c.
Proof. intros Hrefl Hc w. rewrite Hc. apply Hrefl. Qed.

Lemma keeps_bind R {A B} (c : Py A) (k : A -> Py B) :
  (forall x y z, R x y -> R y z -> R x z) ->
  keeps R c -> (forall a, keeps R (k a)) -> keeps R (bind c k).
Proof.
  intros Htrans Hc Hk w. unfold bind. specialize (Hc w).
  destruct (c w) as [[a|e] w1]; simpl in *; [|exact Hc].
  exact (Htrans _ _ _ Hc (Hk a w1)).
Qed.

Lemma keeps_try_except R {A} (c : Py A) (h : Exn -> Py A) :
  (forall x y z, R x y -> R y z -> R x z) ->
  keeps R c -> (forall e, keeps R (h e)) -> keeps R (try_except c h).
Proof.
  intros Htrans Hc Hh w. unfold try_except. specialize (Hc w).
  destruct (c w) as [[a|e] w1]; simpl in *; [exact Hc|].
  exact (Htrans _ _ _ Hc (Hh e w1)).
Qed.

Lemma grew_refl p w : grew_without p w w.
Proof. exists []. rewrite app_nil_r. split; reflexivity. Qed.

Lemma grew_trans p x y z :
  grew_without p x y -> grew_without p y z -> grew_without p x z.
Proof.
  intros (e1 & H1 & F1) (e2 & H2 & F2). exists (e1 ++ e2).
  rewrite H2, H1, app_assoc, forallb_app, F1, F2. split; reflexivity.
Qed.

Lemma grew_emit p e w : p e = false -> grew_without p w (emit e w).
Proof. intros H. exists [e]. simpl. rewrite H. split; reflexivity. Qed.

Lemma grew_http_send p rq : p (EvRequest rq) = false -> keeps (grew_without p) (http_send rq).
Proof.
  intros H w. exists [EvRequest rq]. rewrite http_send_trace. simpl. rewrite H.
  split; reflexivity.
Qed.

Lemma grew_log p e : p e = false -> keeps (grew_without p) (log e).
Proof. intros H w. apply grew_emit, H. Qed.

Lemma grew_save_token p self td :
  (forall row, p (EvSaveToken row) = false) ->
  keeps (grew_without p) (Database.save_token self td).
Proof.
  intros H w.
  destruct (save_token_cases self td w) as [(i & _ & _ & Hr)|[e Hr]]; rewrite Hr.
  - eexists. simpl. split; [reflexivity|].
    simpl. rewrite H. reflexivity.
  - apply grew_refl.
Qed.

Lemma suffix_refl {A} (l : list A) : suffix_of l l.
Proof. exists []. reflexivity. Qed.

Lemma suffix_trans {A} (l1 l2 l3 : list A) :
  suffix_of l1 l2 -> suffix_of l2 l3 -> suffix_of l1 l3.
Proof.
  intros [p1 H1] [p2 H2]. exists (p2 ++ p1). rewrite H2, H1, app_assoc. reflexivity.
Qed.

Lemma steady_refl w : steady w w.
Proof. repeat split; try reflexivity. apply suffix_refl. Qed.

Lemma steady_trans x y z : steady x y -> steady y z -> steady x z.
Proof.
  intros (A1 & E1 & C1 & T1 & N1) (A2 & E2 & C2 & T2 & N2).
  repeat split; try congruence; [lia | eapply suffix_trans; eassumption].
Qed.

Lemma steady_http_send rq : keeps steady (http_send rq).
Proof.
  intros w. unfold http_send. simpl.
  destruct (network w) as [|[d r|d] rest] eqn:Hn; simpl;
    repeat split; simpl; try lia; try apply suffix_refl;
    rewrite Hn; eexists [_]; reflexivity.
Qed.

Lemma steady_log e : keeps steady (log e).
Proof. intros w. repeat split; simpl; try lia. apply suffix_refl. Qed.

Lemma steady_save_token self td : keeps steady (Database.save_token self td).
Proof.
  intros w.
  destruct (save_token_cases self td w) as [(i & _ & _ & Hr)|[e Hr]]; rewrite Hr.
  - repeat split; simpl; try lia. apply suffix_refl.
  - apply steady_refl.
Qed.

Ltac readonly_more :=
  repeat first [ readonly_step
               | apply readonly_py_len
               | apply readonly_get_actual_account_id
               | apply readonly_is_credit_card
               | apply readonly_get_account_id
               | apply readonly_bearer
               | apply readonly_checked_json
               | solve [unfold readonly; intros; reflexivity] ].

(** One step of a proof of [keeps R c] by the structure of [c]; [refl] and
    [trans] prove that [R] is a preorder, [prim] closes the writing steps. *)
Ltac keeps_step refl trans prim :=
  first
    [ solve [apply keeps_readonly; [exact refl | readonly_more]]
    | prim
    | apply keeps_bind; [exact trans | |]
    | apply keeps_try_except; [exact trans | |]
    | match goal with
      | |- keeps _ (if ?b then _ else _) => destruct b
      | |- keeps _ (match ?x with _ => _ end) => destruct x
      | |- forall _, _ => intro
      end ].

Ltac steady_prim :=
  first [ apply steady_http_send | apply steady_log | apply steady_save_token ].

Ltac steady_tac := repeat keeps_step steady_refl steady_trans steady_prim.

Ltac grew_prim :=
  first [ apply grew_http_send; reflexivity
        | apply grew_log; reflexivity
        | apply grew_save_token; intro; reflexivity ].

Ltac grew_tac p := repeat keeps_step (grew_refl p) (grew_trans p) grew_prim.

Lemma steady_ensure self : keeps steady (_ensure_tokens_ready self).
Proof.
  unfold _ensure_tokens_ready, _exchange_code_for_tokens, _refresh_tokens. steady_tac.
Qed.

Lemma steady_init inst : keeps steady (init inst).
Proof.
  unfold init, getenv_or, getenv_or_None, Database.init.
  repeat first [apply steady_ensure | keeps_step steady_refl steady_trans steady_prim].
Qed.

Lemma steady_list_transactions self name df dt :
  keeps steady (list_transactions self name df dt).
Proof.
  unfold list_transactions, _list_card_transactions, _list_account_transactions.
  steady_tac.
Qed.

Lemma steady_import_transactions inst account :
  keeps steady (Api.import_transactions inst account).
Proof.
  unfold Api.import_transactions.
  repeat first [apply steady_init | apply steady_list_transactions
               | keeps_step steady_refl steady_trans steady_prim].
Qed.

Lemma steady_turn w a : steady w (turn w a).
Proof.
  unfold turn, import_account.
  pose proof (steady_import_transactions (snd a) (fst a) w) as H.
  destruct (Api.import_transactions (snd a) (fst a) w) as [[j|e] w1]; simpl in H;
    [exact H|].
  destruct H as (A1 & E1 & C1 & T1 & N1). repeat split; assumption.
Qed.

Lemma steady_cycle l : forall w, steady w (cycle l w).
Proof.
  induction l as [|a l IH]; intros w; [apply steady_refl|].
  unfold cycle in *. simpl. eapply steady_trans; [apply steady_turn | apply IH].
Qed.

(** X18. A whole import cycle leaves the accounts table, the environment
    and the calendar as they were (no account row is ever written); the
    clock does not go back; and the replies left afterwards are those the
    cycle did not take, in order. *)
Theorem import_cycle_is_steady (w : World) :
  let w' := snd (Api.import_all_accounts w) in
  accounts w' = accounts w /\
  environ w' = environ w /\
  calendar w' = calendar w /\
  clock w <= clock w' /\
  suffix_of (network w') (network w).
Proof.
  intros w'. subst w'.
  assert (H : snd (Api.import_all_accounts w) = cycle (active_accounts w) w).
  { unfold Api.import_all_accounts, Database.init, Database.get_actual_accounts, bind, ret.
    rewrite for_each_run. reflexivity. }
  rewrite H. apply steady_cycle.
Qed.

(** ** [import_transactions] *)

Lemma get_actual_account_id_run self account w :
  Database.get_actual_account_id self account w =
  (Ok (match find (Database.account_row_matches self account) (accounts w) with
       | Some r => ac_actual_account_id r
       | None => None
       end), w).
Proof.
  unfold Database.get_actual_account_id, Database.fetch_account, bind.
  destruct (find _ (accounts w)); reflexivity.
Qed.

(** X19. Once the upstream fetch has returned an object with a "results"
    entry, [import_transactions] logs the number of entries of that object,
    posts {account_id, transactions} to ZAZU_URL/import (default
    http://localhost:3000) and maps the outcome: no reply gives
    HTTPException 502; a 4xx or 5xx reply gives HTTPException with that
    status and the reply's text; any other reply is returned as its JSON
    body, or as {"message": text} when the body is not JSON. *)
Theorem import_forwards_and_maps
        (institution : option string) (account : string) (w w1 w2 : World)
        (client : TrueLayer.t) (m : list (string * json)) (results : json) :
  init institution w = (Ok client, w1) ->
  list_transactions client account (Some "2025-11-01")
                    (Some (calendar w1 (clock w1))) w1 = (Ok (JObj m), w2) ->
  dict_get "results" m = Some results ->
  let actual := match find (Database.account_row_matches (db client) account)
                           (accounts w2) with
                | Some r => ac_actual_account_id r
                | None => None
                end in
  let url := (match environ w2 "ZAZU_URL" with
              | Some u => u
              | None => "http://localhost:3000"
              end ++ "/import")%string in
  let rq := POST_json url (JObj [("account_id", Api.json_of_option actual);
                                 ("transactions", results)]) in
  let w3 := emit (EvRequest rq) (emit (EvLogInfo (Fetched (length m))) w2) in
  Api.import_transactions institution account w =
  match network w2 with
  | [] => (Raise (HTTPException 502 ImportServiceError), w3)
  | Unreachable d :: rest =>
      (Raise (HTTPException 502 ImportServiceError), consume d rest w3)
  | Reply d resp :: rest =>
      if (400 <=? status_code resp) && (status_code resp <? 600)
      then (Raise (HTTPException (status_code resp) (ImportFailed (text resp))),
            consume d rest w3)
      else (Ok (match parsed resp with
                | Some j => j
                | None => JObj [("message", JStr (text resp))]
                end),
            consume d rest w3)
  end.
Proof.
  intros Hinit Hlist Hres actual url rq w3.
  unfold Api.import_transactions.
  rewrite (bind_ok _ _ _ _ _ Hinit).
  erewrite bind_ok by reflexivity.
  erewrite bind_ok by reflexivity.
  rewrite (bind_ok _ _ _ _ _ Hlist).
  erewrite bind_ok by reflexivity.
  erewrite bind_ok by reflexivity.
  erewrite bind_ok by apply get_actual_account_id_run.
  unfold subscript at 1. rewrite Hres.
  erewrite bind_ok by reflexivity.
  erewrite bind_ok by reflexivity.
  unfold bind, try_except, http_send, Api.ok, response_json. simpl.
  fold actual. fold url. fold rq.
  destruct (network w2) as [|[d resp|d] rest]; simpl; try reflexivity.
  destruct ((400 <=? status_code resp) && (status_code resp <? 600)); simpl;
    [reflexivity|].
  destruct (parsed resp); reflexivity.
Qed.

Lemma import_forwards_and_maps_witness :
  let w := fixture_world 1000 [fixture_row "barclays" 5000]
             [json_reply 200 (JObj [("results", JArr [])]); html_reply 503] in
  fst (Api.import_transactions (Some "barclays") "checking1" w) =
  Raise (HTTPException 503 (ImportFailed "<html>Bad Gateway</html>")).
Proof.
  intros w.
  lazymatch eval vm_compute in
        (list_transactions (manager (Some "barclays") w) "checking1" (Some "2025-11-01")
                           (Some (calendar w (clock w))) w) with
  | (Ok (JObj ?m), ?w2) =>
      assert (Hlist : list_transactions (manager (Some "barclays") w) "checking1"
                        (Some "2025-11-01") (Some (calendar w (clock w))) w
                      = (Ok (JObj m), w2)) by (vm_compute; reflexivity);
      rewrite (import_forwards_and_maps (Some "barclays") "checking1" w w w2
                 (manager (Some "barclays") w) m (JArr []) eq_refl Hlist eq_refl)
  end.
  reflexivity.
Defined.

(** *** What is sent downstream, and when *)

Lemma try_except_then_readonly {A} (c : Py A) (h : Exn -> Py A) w :
  (forall e, readonly (h e)) -> snd (try_except c h w) = snd (c w).
Proof.
  intros Hh. unfold try_except. destruct (c w) as [[a|e] w']; simpl; [reflexivity|apply Hh].
Qed.

Lemma no_post_init inst : keeps (grew_without is_downstream_post) (init inst).
Proof.
  unfold init, getenv_or, getenv_or_None, Database.init, _ensure_tokens_ready,
    _exchange_code_for_tokens, _refresh_tokens.
  grew_tac is_downstream_post.
Qed.

Lemma no_post_list_transactions self name df dt :
  keeps (grew_without is_downstream_post) (list_transactions self name df dt).
Proof.
  unfold list_transactions, _list_card_transactions, _list_account_transactions.
  grew_tac is_downstream_post.
Qed.

(** The part of [import_transactions] that talks to the downstream. *)
Lemma forward_world (zazu_url : string) (body : json) (k : Response -> Py json) w :
  (forall r, readonly (k r)) ->
  snd (bind (try_except (http_send (POST_json zazu_url body))
                        (fun e => match e with
                                  | RequestException =>
                                      raise (HTTPException 502 ImportServiceError)
                                  | _ => raise e
                                  end)) k w)
  = snd (http_send (POST_json zazu_url body) w).
Proof.
  intros Hk. rewrite bind_then_readonly by exact Hk.
  apply try_except_then_readonly. intros e. destruct e; apply readonly_raise.
Qed.

(** X20. [import_transactions] posts to the downstream at most once, as the
    last thing it does, right after logging the "Fetched" record: if it fails
    before, nothing has been sent downstream; and whenever it returns, the
    post has been sent. *)
Theorem downstream_only_after_fetch (institution : option string) (account : string)
        (w : World) :
  let run := Api.import_transactions institution account w in
  exists pre,
    forallb (fun e => negb (is_downstream_post e)) pre = true /\
    ((trace (snd run) = trace w ++ pre /\ exists e, fst run = Raise e) \/
     (exists n url body,
         trace (snd run) =
         trace w ++ pre ++ [EvLogInfo (Fetched n); EvRequest (POST_json url body)])).
Proof.
  intros run. subst run. unfold Api.import_transactions.
  destruct (no_post_init institution w) as (ev1 & T1 & F1).
  destruct (init institution w) as [[client|e] w1] eqn:Hinit; simpl in T1.
  2:{ rewrite (bind_raise _ _ _ _ _ Hinit). exists ev1. split; [exact F1|].
      left. split; [exact T1 | eexists; reflexivity]. }
  rewrite (bind_ok _ _ _ _ _ Hinit).
  erewrite bind_ok by reflexivity.
  erewrite bind_ok by reflexivity.
  set (date_to := Some (calendar w1 (clock w1))).
  destruct (no_post_list_transactions client account (Some "2025-11-01") date_to w1)
    as (ev2 & T2 & F2).
  destruct (list_transactions client account (Some "2025-11-01") date_to w1)
    as [[tx|e] w2] eqn:Hlist; simpl in T2.
  2:{ rewrite (bind_raise _ _ _ _ _ Hlist). exists (ev1 ++ ev2).
      rewrite forallb_app, F1, F2. split; [reflexivity|].
      left. simpl. rewrite T2, T1, app_assoc. split; [reflexivity | eexists; reflexivity]. }
  rewrite (bind_ok _ _ _ _ _ Hlist).
  assert (T12 : trace w2 = trace w ++ ev1 ++ ev2) by (rewrite T2, T1, app_assoc; reflexivity).
  assert (F12 : forallb (fun e => negb (is_downstream_post e)) (ev1 ++ ev2) = true)
    by (rewrite forallb_app, F1, F2; reflexivity).
  clear T1 T2 F1 F2.
  pose proof (readonly_py_len tx w2) as Hro.
  destruct (Api.py_len tx w2) as [[n|e] w2'] eqn:Hlen; simpl in Hro; subst w2'.
  2:{ rewrite (bind_raise _ _ _ _ _ Hlen). exists (ev1 ++ ev2). split; [exact F12|].
      left. split; [exact T12 | eexists; reflexivity]. }
  rewrite (bind_ok _ _ _ _ _ Hlen).
  erewrite bind_ok by reflexivity.
  erewrite bind_ok by apply get_actual_account_id_run.
  set (w3 := emit (EvLogInfo (Fetched n)) w2).
  pose proof (readonly_subscript tx "results" w3) as Hro.
  destruct (subscript tx "results" w3) as [[results|e] w3'] eqn:Hsub;
    simpl in Hro; subst w3'.
  2:{ rewrite (bind_raise _ _ _ _ _ Hsub).
      exists ((ev1 ++ ev2) ++ [EvLogInfo (Fetched n)]).
      rewrite forallb_app, F12. split; [reflexivity|].
      left. simpl. rewrite T12, <- !app_assoc.
      split; [reflexivity | eexists; reflexivity]. }
  rewrite (bind_ok _ _ _ _ _ Hsub).
  erewrite bind_ok by reflexivity.
  exists (ev1 ++ ev2). split; [exact F12|]. right.
  rewrite forward_world.
  - rewrite http_send_trace. simpl. rewrite T12.
    eexists _, _, _. rewrite <- !app_assoc. reflexivity.
  - intros r. readonly_more.
Qed.


(** ** The other routes *)

Lemma ensure_success_token self w w' :
  Forall (fun r => tk_provider r = "truelayer") (tokens w) ->
  _ensure_tokens_ready self w = (Ok tt, w') ->
  exists tok, lookup_token (db self) w' = Some tok.
Proof.
  intros Hprov Hrun.
  destruct (lookup_token (db self) w) as [old|] eqn:Hl.
  - destruct (Z.le_gt_cases (expires_at old) (clock w + TOKEN_SKEW_SECONDS)) as [Hdue|Hfresh].
    + destruct (refresh_success self w w' old Hl Hprov Hdue Hrun) as (td & w1 & _ & _ & H).
      eauto.
    + rewrite (ensure_fresh self w old Hl) in Hrun by lia.
      inversion Hrun; subst w'. eauto.
  - apply (bootstrap_success self w w' Hl Hprov Hrun).
Qed.

Lemma init_ok_manager inst w client w1 :
  init inst w = (Ok client, w1) ->
  client = manager inst w /\ _ensure_tokens_ready (manager inst w) w = (Ok tt, w1).
Proof.
  intros H. destruct (client_configured w) eqn:Hc.
  - rewrite init_configured in H by exact Hc. unfold bind in H.
    destruct (_ensure_tokens_ready (manager inst w) w) as [[[]|e] w'];
      inversion H; subst; auto.
  - rewrite init_unconfigured in H by exact Hc. discriminate.
Qed.

(** X21. The routes [list_cards] and [list_accounts] build a manager and
    then list: when the construction fails they fail with its error and go
    no further; when it succeeds a token is stored, and the one request they
    add is a GET that carries the access token stored after the construction
    (the refreshed or exchanged one, if it refreshed or exchanged). *)
Theorem routes_use_token_after_construction (institution : option string) (w : World) :
  store_ok (tokens w) ->
  (forall e w1,
      init institution w = (Raise e, w1) ->
      ApiRoutes.list_cards institution w = (Raise e, w1) /\
      ApiRoutes.list_accounts institution w = (Raise e, w1)) /\
  (forall client w1,
      init institution w = (Ok client, w1) ->
      exists tok,
        Database.get_token (db client) w1 = (Ok (Some tok), w1) /\
        trace (snd (ApiRoutes.list_cards institution w)) =
          trace w1 ++ [EvRequest (GET cards_url
                         [("Authorization", ("Bearer " ++ access_token tok)%string);
                          ("Content-Type", "application/json")] [])] /\
        trace (snd (ApiRoutes.list_accounts institution w)) =
          trace w1 ++ [EvRequest (GET accounts_url
                         [("Authorization", ("Bearer " ++ access_token tok)%string);
                          ("Content-Type", "application/json")] [])]).
Proof.
  intros [_ Hprov]. split.
  - intros e w1 H. unfold ApiRoutes.list_cards, ApiRoutes.list_accounts.
    rewrite !(bind_raise _ _ _ _ _ H). split; reflexivity.
  - intros client w1 H.
    destruct (init_ok_manager _ _ _ _ H) as [-> Hrun].
    destruct (ensure_success_token _ _ _ Hprov Hrun) as [tok Htok].
    exists tok. rewrite get_token_lookup, Htok. split; [reflexivity|].
    unfold ApiRoutes.list_cards, ApiRoutes.list_accounts.
    rewrite !(bind_ok _ _ _ _ _ H). split.
    + rewrite (list_cards_world _ _ _ Htok), http_send_trace. reflexivity.
    + unfold _list_accounts. rewrite (bind_ok _ _ _ _ _ (bearer_run _ _ _ Htok)).
      rewrite bind_then_readonly by (intros r; apply readonly_checked_json).
      rewrite http_send_trace. reflexivity.
Qed.

Lemma routes_use_token_after_construction_witness :
  let m := [("access_token", JStr "access-1");
            ("refresh_token", JStr "refresh-1");
            ("token_type", JStr "Bearer");
            ("expires_in", JInt 3600)] in
  let w := fixture_world 1000 [fixture_row "barclays" 1010]
             [json_reply 200 (JObj m); json_reply 200 (JObj [("results", JArr [])])] in
  exists w1,
    trace (snd (ApiRoutes.list_cards (Some "barclays") w)) =
    trace w1 ++ [EvRequest (GET cards_url [("Authorization", "Bearer access-1");
                                           ("Content-Type", "application/json")] [])].
Proof.
  intros m w.
  assert (Hok : store_ok (tokens w)).
  { split; [repeat constructor; simpl; tauto | repeat constructor]. }
  destruct (routes_use_token_after_construction (Some "barclays") w Hok) as [_ H].
  destruct (H (manager (Some "barclays") w) (snd (init (Some "barclays") w)))
    as (tok & Hg & Hc & _).
  - vm_compute. reflexivity.
  - exists (snd (init (Some "barclays") w)).
    vm_compute in Hg. inversion Hg; subst tok. exact Hc.
Defined.

Lemma turn_unconfigured w a :
  client_configured w = false ->
  turn w a = emit (EvLogException (FailedImporting (fst a) (snd a))
                     (ValueError "TRUE_LAYER_CLIENT_ID and TRUE_LAYER_CLIENT_SECRET must be set"))
                  w.
Proof.
  intros Hc. apply turn_raise. unfold import_account, Api.import_transactions.
  apply bind_raise, init_unconfigured, Hc.
Qed.

Lemma cycle_unconfigured l : forall w,
  client_configured w = false ->
  failures (trace (cycle l w)) = (failures (trace w) + length l)%nat /\
  network (cycle l w) = network w /\
  tokens (cycle l w) = tokens w.
Proof.
  induction l as [|a l IH]; intros w Hc; simpl.
  - rewrite Nat.add_0_r. auto.
  - unfold cycle in *. simpl. rewrite (turn_unconfigured w a Hc).
    destruct (IH (emit (EvLogException (FailedImporting (fst a) (snd a))
                          (ValueError "TRUE_LAYER_CLIENT_ID and TRUE_LAYER_CLIENT_SECRET must be set")) w))
      as (Hf & Hn & Ht); [exact Hc|].
    rewrite Hf, Hn, Ht. simpl. rewrite failures_app. simpl.
    repeat split. lia.
Qed.

(** X22. The route [/import/transactions] answers
    {"status": "imported all accounts"} whatever happened.  In particular,
    with the client id or secret unset, the import of every active account
    fails and is logged, no request is sent and no token row written, and
    the route still gives that answer. *)
Theorem import_root_always_answers (w : World) :
  let run := ApiRoutes.import_transactions_root w in
  fst run = Ok (JObj [("status", JStr "imported all accounts")]) /\
  (client_configured w = false ->
   failures (trace (snd run))
     = (failures (trace w) + length (active_accounts w))%nat /\
   network (snd run) = network w /\
   tokens (snd run) = tokens w).
Proof.
  intros run.
  assert (H : run = (Ok (JObj [("status", JStr "imported all accounts")]),
                     cycle (active_accounts w) w)).
  { subst run. unfold ApiRoutes.import_transactions_root, Api.import_all_accounts,
      Database.init, Database.get_actual_accounts, bind, ret.
    rewrite for_each_run. reflexivity. }
  rewrite H. split; [reflexivity|].
  intros Hc. apply cycle_unconfigured, Hc.
Qed.

Lemma import_root_always_answers_witness :
  let w := mkWorld 1000 (fun _ => None) fixture_calendar [] fixture_accounts
                   [json_reply 200 JNull] [] in
  fst (ApiRoutes.import_transactions_root w)
    = Ok (JObj [("status", JStr "imported all accounts")]) /\
  failures (trace (snd (ApiRoutes.import_transactions_root w))) = 3%nat /\
  network (snd (ApiRoutes.import_transactions_root w)) = [json_reply 200 JNull].
Proof.
  intros w. destruct (import_root_always_answers w) as [Ha Hb].
  destruct (Hb eq_refl) as (Hf & Hn & _).
  split; [exact Ha|]. split; [exact Hf | exact Hn].
Defined.

(** X23. [start_periodic_import_task] schedules the task once: a call on
    an application already started changes nothing, and any number of calls,
    at least one, on an application not yet started creates exactly one task
    and logs one "scheduled" record. *)
Theorem periodic_task_started_once (s : ApiRoutes.AppState) (n : nat) :
  ApiRoutes.started s = false ->
  let s' := Nat.iter (S n) ApiRoutes.start_periodic_import_task s in
  ApiRoutes.started s' = true /\
  ApiRoutes.tasks_created s' = S (ApiRoutes.tasks_created s) /\
  ApiRoutes.scheduled_logged s' = S (ApiRoutes.scheduled_logged s) /\
  ApiRoutes.import_task s' = Some (ApiRoutes.tasks_created s) /\
  ApiRoutes.start_periodic_import_task s' = s'.
Proof.
  intros Hs. induction n as [|n IH].
  - simpl. unfold ApiRoutes.start_periodic_import_task. rewrite Hs.
    repeat split.
  - cbv zeta in *. rewrite Nat.iter_succ.
    destruct IH as (H1 & H2 & H3 & H4 & H5). rewrite H5.
    repeat split; assumption.
Qed.

Lemma periodic_task_started_once_witness :
  let s0 := ApiRoutes.mkAppState None None 0 0 in
  Nat.iter 3 ApiRoutes.start_periodic_import_task s0 =
  ApiRoutes.mkAppState (Some true) (Some 0%nat) 1 1.
Proof.
  intros s0.
  destruct (periodic_task_started_once s0 2 eq_refl) as (H1 & H2 & H3 & H4 & _).
  destruct (Nat.iter 3 ApiRoutes.start_periodic_import_task s0) as [st task n l].
  unfold ApiRoutes.started in H1. simpl in *.
  destruct st as [[|]|]; try discriminate. subst. reflexivity.
Defined.

End Lifecycle.
